(** * Housekeeping service: record store, timestamp index, paging.

    A shallow embedding of
    [Services/source/housekeeping/housekeeping_service.c] and the
    properties its specification states about it.

    Conventions of the embedding.
    - C integers are [Z] with the wrap-around written out: [u16] and [u32]
      are the conversions to [uint16_t] and [uint32_t]; arithmetic on
      [uint16_t] operands is done in [int] (integer promotion) and wraps
      only where the C code stores it back into a [uint16_t].
    - The globals of the file are the fields of [hk_state]; a function of
      the C file is a function from [hk_state] (and from the outcome of the
      library calls it makes, a [world]) to an [outcome].
    - A parameter of a C function is a [Z] in the range of its C type;
      the statements that depend on the range say so.
    - The file system is a finite map from file names to file contents,
      and the names are built as [snprintf] builds them. *)

From Stdlib Require Import ZArith List Lia Bool String Ascii.
From stdpp Require Import base gmap strings pretty list.

Local Open Scope Z_scope.

(** ** Machine integers *)

Definition u16 (x : Z) : Z := x mod 65536.
Definition u32 (x : Z) : Z := x mod 4294967296.

(** ** Data *)

(** Modelled from the spec: the struct declarations are in headers that
    are not among the sources. A snapshot is a header (the time stamp and
    the slot the record was written into) followed by one sub-record per
    subsystem, each an opaque blob of bytes; the field names are the ones
    the code uses. *)
Definition blob := list Z.

Record hk_time_and_order := mk_timeorder {
  UNIXtimestamp : Z;   (* uint32_t *)
  dataPosition : Z     (* uint16_t *)
}.

Record All_systems_housekeeping := mk_hk {
  hk_timeorder : hk_time_and_order;
  Athena_hk : blob;
  EPS_hk : blob;
  UHF_hk : blob;
  S_band_hk : blob
}.

(** Modelled from the spec: [Result] is declared in a header that is not
    among the sources; an operation succeeds or fails. The code tests it as
    a truth value ([if(!write_hk_to_file(...))] guards the "data lost"
    path, [if (dynamic_timestamp_array_handler(...))] guards the index
    update), so [FAILURE] is the zero enumerator. *)
Inductive Result := FAILURE | SUCCESS.

Definition Result_nonzero (r : Result) : bool :=
  match r with SUCCESS => true | FAILURE => false end.

Definition Result_eqb (a b : Result) : bool :=
  match a, b with
  | FAILURE, FAILURE | SUCCESS, SUCCESS => true
  | _, _ => false
  end.

(** Modelled from the spec: [Found_file] is declared in the same missing
    header; [if(!exists(filename))] is the "does not exist" path, so
    [FILE_NOT_EXIST] is the zero enumerator. *)
Inductive Found_file := FILE_NOT_EXIST | FILE_EXISTS.

(** ** File names *)

Definition base_file : string := "tempHKdata".
Definition extension : string := ".TMP".

Definition strlen (s : string) : Z := Z.of_nat (String.length s).

(** [num_digits]: [while (num != 0) { num /= 10; ++count; }] with a
    [uint16_t] counter. An [int] has at most ten decimal digits, which
    bounds the loop. *)
Fixpoint num_digits_loop (fuel : nat) (num count : Z) : Z :=
  match fuel with
  | O => count
  | S fuel' =>
      if num =? 0 then count
      else num_digits_loop fuel' (Z.quot num 10) (u16 (count + 1))
  end.

Definition num_digits (num : Z) : Z := num_digits_loop 11 num 0.

(** [snprintf(filename, length, "%s%hu%s", base_file, i, extension)]:
    at most [length - 1] characters are stored. *)
Definition snprintf_hk (length : Z) (i : Z) : string :=
  String.substring 0 (Z.to_nat (length - 1))
    (base_file +:+ pretty (Z.to_N (u16 i)) +:+ extension).

(** [strlen(base_file) + num_digits(n) + strlen(extension) + 1], stored in
    a [uint16_t]. *)
Definition filename_length (n : Z) : Z :=
  u16 (strlen base_file + num_digits n + strlen extension + 1).

(** The name the write path gives to slot [i]. *)
Definition hk_filename (i : Z) : string := snprintf_hk (filename_length i) i.

(** ** File contents

    [write_hk_to_file] writes the five sub-records with five [fwrite]
    calls and [read_hk_from_file] reads them back with five [fread] calls
    in the same order; a file is the list of the items that reached it. *)
Inductive hk_item :=
| Item_timeorder (t : hk_time_and_order)
| Item_blob (b : blob).

Definition hk_items (d : All_systems_housekeeping) : list hk_item :=
  [Item_timeorder (hk_timeorder d); Item_blob (Athena_hk d);
   Item_blob (EPS_hk d); Item_blob (UHF_hk d); Item_blob (S_band_hk d)].

(** [fread] of item [k]: when the file is too short nothing is stored and
    the destination keeps what it held. *)
Definition fread_timeorder (f : list hk_item) (k : nat)
    (old : hk_time_and_order) : hk_time_and_order :=
  match f !! k with Some (Item_timeorder t) => t | _ => old end.

Definition fread_blob (f : list hk_item) (k : nat) (old : blob) : blob :=
  match f !! k with Some (Item_blob b) => b | _ => old end.

Definition fread_all (f : list hk_item) (d : All_systems_housekeeping)
    : All_systems_housekeeping :=
  {| hk_timeorder := fread_timeorder f 0 (hk_timeorder d);
     Athena_hk := fread_blob f 1 (Athena_hk d);
     EPS_hk := fread_blob f 2 (EPS_hk d);
     UHF_hk := fread_blob f 3 (UHF_hk d);
     S_band_hk := fread_blob f 4 (S_band_hk d) |}.

(** ** Outbound packets *)
Inductive csp_packet_out :=
| Pkt_reply (data : list Z) (length : Z)
| Pkt_hk (subservice status : Z) (body : All_systems_housekeeping) (length : Z).

(** ** The globals *)

(** The pointer [timestamps]: null (as a zero-initialised global), the
    block of the last [realloc] with the byte count that was asked for, or
    a freed block. *)
Inductive ts_pointer :=
| ts_NULL
| ts_block (bytes : Z)
| ts_freed.

(** [timestamps_at i] is the word at [timestamps + i], for every [int]
    [i]: the code indexes the pointer without a bounds check, so the model
    is the flat memory around the block. [realloc] is taken to leave the
    block in place (every call asks for the same byte count, see
    [sizeof_realloc_operand]), which is the behaviour most favourable to
    the code. *)
Record hk_state := mk_state {
  MAX_FILES : Z;
  current_file : Z;
  timestamps : ts_pointer;
  timestamps_at : Z -> Z;
  hk_timestamp_array_size : Z;
  f_count_lock : bool;                    (* true: the mutex is taken *)
  files : gmap string (list hk_item);
  conn_sent : list csp_packet_out         (* packets handed to csp_send, oldest first *)
}.

Definition set_MAX_FILES (v : Z) (st : hk_state) : hk_state :=
  mk_state v (current_file st) (timestamps st) (timestamps_at st)
    (hk_timestamp_array_size st) (f_count_lock st) (files st) (conn_sent st).
Definition set_current_file (v : Z) (st : hk_state) : hk_state :=
  mk_state (MAX_FILES st) v (timestamps st) (timestamps_at st)
    (hk_timestamp_array_size st) (f_count_lock st) (files st) (conn_sent st).
Definition set_timestamps (v : ts_pointer) (st : hk_state) : hk_state :=
  mk_state (MAX_FILES st) (current_file st) v (timestamps_at st)
    (hk_timestamp_array_size st) (f_count_lock st) (files st) (conn_sent st).
Definition set_timestamps_at (v : Z -> Z) (st : hk_state) : hk_state :=
  mk_state (MAX_FILES st) (current_file st) (timestamps st) v
    (hk_timestamp_array_size st) (f_count_lock st) (files st) (conn_sent st).
Definition set_hk_timestamp_array_size (v : Z) (st : hk_state) : hk_state :=
  mk_state (MAX_FILES st) (current_file st) (timestamps st) (timestamps_at st)
    v (f_count_lock st) (files st) (conn_sent st).
Definition set_f_count_lock (v : bool) (st : hk_state) : hk_state :=
  mk_state (MAX_FILES st) (current_file st) (timestamps st) (timestamps_at st)
    (hk_timestamp_array_size st) v (files st) (conn_sent st).
Definition set_files (v : gmap string (list hk_item)) (st : hk_state) : hk_state :=
  mk_state (MAX_FILES st) (current_file st) (timestamps st) (timestamps_at st)
    (hk_timestamp_array_size st) (f_count_lock st) v (conn_sent st).
Definition set_conn_sent (v : list csp_packet_out) (st : hk_state) : hk_state :=
  mk_state (MAX_FILES st) (current_file st) (timestamps st) (timestamps_at st)
    (hk_timestamp_array_size st) (f_count_lock st) (files st) v.

(** Reading and writing [timestamps[i]] ([uint32_t] elements). *)
Definition ts_read (st : hk_state) (i : Z) : Z := u32 (timestamps_at st i).

Definition ts_write (i v : Z) (st : hk_state) : hk_state :=
  set_timestamps_at (fun j => if j =? i then u32 v else timestamps_at st j) st.

(** The globals at start-up: [MAX_FILES = 500], [current_file = 1],
    [timestamps] null, [hk_timestamp_array_size = 0], the mutex free. The
    memory the block will occupy and the files left on the medium are
    whatever they are. *)
Definition initial_state (heap : Z -> Z) (fs : gmap string (list hk_item)) : hk_state :=
  mk_state 500 1 ts_NULL heap 0 false fs [].

(** ** The world: what the library calls made by one operation answer *)
Record world := mk_world {
  w_time : Z;                              (* time(NULL) *)
  w_devices : All_systems_housekeeping;    (* what collect_hk_from_devices leaves *)
  w_malloc : bool;                         (* malloc returns a block *)
  w_realloc : bool;                        (* realloc returns a block *)
  w_fopen_wb : bool;                       (* fopen(_, "wb") returns a stream *)
  w_fwrite : nat;                          (* how many of the fwrite calls store their item *)
  w_remove : string -> bool;               (* remove(name) returns 0 *)
  w_csp_send : bool                        (* csp_send returns non-zero *)
}.

(** ** Outcomes of a call *)
Inductive outcome (A : Type) :=
| Ret (r : A) (st : hk_state)   (* the call returns [r] *)
| Blocked                       (* xSemaphoreTake(_, portMAX_DELAY) on a mutex nobody will give *)
| Hang                          (* a loop whose condition stays true *)
| Fault (st : hk_state).        (* a store through a null or freed pointer *)
Arguments Ret {A} r st.
Arguments Blocked {A}.
Arguments Hang {A}.
Arguments Fault {A} st.

Definition bind {A B : Type} (m : outcome A) (k : A -> hk_state -> outcome B)
    : outcome B :=
  match m with
  | Ret r st => k r st
  | Blocked => Blocked
  | Hang => Hang
  | Fault st => Fault st
  end.

(** ** The mutex *)

(** [prv_get_lock]: between two calls of the service no call is running,
    so a mutex found taken was left taken by a call that has returned and
    is never given back. *)
Definition prv_get_lock (st : hk_state) : outcome unit :=
  if f_count_lock st then Blocked else Ret tt (set_f_count_lock true st).

Definition prv_give_lock (st : hk_state) : outcome unit :=
  Ret tt (set_f_count_lock false st).

(** ** Loops over a [uint16_t] counter

    [for (; i <= hi; i++) body] with [uint16_t i] and [uint16_t hi]. With
    [hi = 65535] the condition holds for every value of [i] and the loop
    never exits; otherwise it runs [body] for [i], [i+1], ..., [hi].
    [for_u16_steps] is the loop run step by step, [for_u16] its result. *)
Fixpoint for_u16_steps {S : Type} (fuel : nat) (i hi : Z)
    (body : Z -> S -> S) (s : S) : option S :=
  if i <=? hi then
    match fuel with
    | O => None
    | Datatypes.S fuel' => for_u16_steps fuel' (u16 (i + 1)) hi body (body i s)
    end
  else Some s.

Definition for_u16 {S : Type} (i hi : Z) (body : Z -> S -> S) (s : S)
    : option S :=
  if hi =? 65535 then None
  else Some (fold_left (fun s j => body j s) (seqZ i (hi + 1 - i)) s).

(** ** The timestamp index *)

Definition threshold : Z := 15.

(** The [while (left < right)] loop of the leftmost binary search. Every
    iteration shrinks [right - left], so [right - left] iterations are
    enough (see [search_loop_fuel]). The list collects, in order, the
    indices at which [timestamps] is read. *)
Fixpoint search_loop (fuel : nat) (st : hk_state) (timestamp left right : Z)
    (reads : list Z) : Z * list Z :=
  match fuel with
  | O => (left, reads)
  | S fuel' =>
      if left <? right then
        let middle := u16 ((left + right) / 2) in
        let idx := middle - (current_file st - 1) in
        if ts_read st idx <? timestamp
        then search_loop fuel' st timestamp (u16 (middle + 1)) right (reads ++ [idx])
        else search_loop fuel' st timestamp left middle (reads ++ [idx])
      else (left, reads)
  end.

(** What follows the loop: the choice between the position found and its
    lower neighbour. *)
Definition select_position (st : hk_state) (timestamp left : Z)
    (reads : list Z) : Z * list Z :=
  let true_position := u16 (left - (current_file st - 1)) in
  if 1 <? true_position then
    let reads1 := reads ++ [true_position - 1] in
    if u32 (timestamp - ts_read st (true_position - 1)) <=? threshold then
      (u16 (true_position - 1), reads1)
    else
      let reads2 := reads1 ++ [true_position] in
      if negb (true_position =? hk_timestamp_array_size st) then
        if u32 (ts_read st true_position - timestamp) <=? threshold
        then (true_position, reads2)
        else (0, reads2)
      else
        if (ts_read st true_position <? timestamp)
           && (u32 (timestamp - ts_read st true_position) <=? threshold)
        then (true_position, reads2)
        else if u32 (ts_read st true_position - timestamp) <=? threshold
        then (true_position, reads2)
        else (0, reads2)
  else
    let reads1 := reads ++ [true_position] in
    if u32 (ts_read st true_position - timestamp) <=? threshold
    then (true_position, reads1)
    else (0, reads1).

(** [get_file_id_from_timestamp], with the list of the indices read. *)
Definition get_file_id_trace (st : hk_state) (timestamp : Z) : Z * list Z :=
  let timestamp := u32 timestamp in   (* the parameter is a uint32_t *)
  match timestamps st with
  | ts_NULL => (0, [])
  | _ =>
      let reads := [current_file st] in
      if ts_read st (current_file st) =? 0 then
        if current_file st =? 1 then (0, reads)
        else
          let left := 1 in
          let right := u16 (current_file st - 1) in
          let '(left', reads') :=
            search_loop (Z.to_nat (right - left)) st timestamp left right reads in
          select_position st timestamp left' reads'
      else
        let left := current_file st in
        let right := u16 (left + hk_timestamp_array_size st - 1) in
        let '(left', reads') :=
          search_loop (Z.to_nat (right - left)) st timestamp left right reads in
        select_position st timestamp left' reads'
  end.

Definition get_file_id_from_timestamp (st : hk_state) (timestamp : Z) : Z :=
  fst (get_file_id_trace st timestamp).

(** The operand of [sizeof] in
    [realloc(timestamps, sizeof( *timestamps * (num_items + 1)))] is the
    product, an expression of type [uint32_t]: the byte count asked for is
    the size of one element, whatever [num_items] is. *)
Definition sizeof_realloc_operand : Z := 4.

Definition dynamic_timestamp_array_handler (w : world) (num_items : Z)
    (st : hk_state) : outcome Result :=
  if num_items =? 0 then
    match timestamps st with
    | ts_NULL => Ret SUCCESS (set_hk_timestamp_array_size 0 st)
    | ts_block _ =>
        (* free(timestamps): the pointer keeps its value *)
        Ret SUCCESS (set_hk_timestamp_array_size 0 (set_timestamps ts_freed st))
    | ts_freed => Fault st
    end
  else if negb (num_items =? hk_timestamp_array_size st) then
    match timestamps st with
    | ts_freed => Fault st
    | _ =>
        if w_realloc w then
          let st1 := set_timestamps (ts_block sizeof_realloc_operand) st in
          let i := u16 (hk_timestamp_array_size st + 1) in
          let st2 := set_hk_timestamp_array_size num_items st1 in
          match for_u16 i num_items (fun j s => ts_write j 0 s) st2 with
          | Some st3 => Ret SUCCESS st3
          | None => Hang
          end
        else Ret FAILURE st
    end
  else Ret SUCCESS st.

(** ** Files *)

Definition exists_ (filename : string) (st : hk_state) : Found_file :=
  match files st !! filename with
  | Some _ => FILE_EXISTS
  | None => FILE_NOT_EXIST
  end.

Definition Found_file_nonzero (f : Found_file) : bool :=
  match f with FILE_EXISTS => true | FILE_NOT_EXIST => false end.

(** [remove(filename)]: 0 when the file is gone, non-zero otherwise. *)
Definition remove (w : world) (filename : string) (st : hk_state)
    : Z * hk_state :=
  if w_remove w filename
  then (0, set_files (delete filename (files st)) st)
  else (-1, st).

(** [write_hk_to_file]. [fopen(_, "wb")] empties the file; the values the
    five [fwrite] calls return are not looked at; the test that follows
    them, [if(fwrite == 0)], compares the address of the function with
    zero and is never taken. *)
Definition write_hk_to_file (w : world) (filename : string)
    (all_hk_data : All_systems_housekeeping) (st : hk_state) : outcome Result :=
  if negb (w_fopen_wb w) then Ret FAILURE st
  else
    let written := take (w_fwrite w) (hk_items all_hk_data) in
    Ret SUCCESS (set_files (<[filename := written]> (files st)) st).

(** [read_hk_from_file]. The destination is a pointer: [None] is the null
    pointer, and the [fread] calls store through it. *)
Definition read_hk_from_file (filename : string)
    (all_hk_data : option All_systems_housekeeping) (st : hk_state)
    : outcome (Result * option All_systems_housekeeping) :=
  if negb (Found_file_nonzero (exists_ filename st)) then
    Ret (FAILURE, all_hk_data) st
  else
    match files st !! filename with
    | None => Ret (FAILURE, all_hk_data) st
    | Some f =>
        match all_hk_data with
        | None => Fault st
        | Some d => Ret (SUCCESS, Some (fread_all f d)) st
        end
    end.

(** ** The record store *)

(** [populate_and_store_hk_data]. *)
Definition populate_and_store_hk_data (w : world) (st : hk_state)
    : outcome Result :=
  (* collect_hk_from_devices(&temp_hk_data), then the time stamp *)
  let stamp := u32 (w_time w) in
  bind (prv_get_lock st) (fun _ st =>
  let temp_hk_data :=
    {| hk_timeorder := {| UNIXtimestamp := stamp; dataPosition := current_file st |};
       Athena_hk := Athena_hk (w_devices w);
       EPS_hk := EPS_hk (w_devices w);
       UHF_hk := UHF_hk (w_devices w);
       S_band_hk := S_band_hk (w_devices w) |} in
  let length := filename_length (current_file st) in
  if negb (w_malloc w) then Ret FAILURE st
  else
    let filename := snprintf_hk length (current_file st) in
    bind (write_hk_to_file w filename temp_hk_data st) (fun r st =>
    if negb (Result_nonzero r) then Ret FAILURE st
    else
      bind (dynamic_timestamp_array_handler w (MAX_FILES st) st) (fun r st =>
      let st := if Result_nonzero r then ts_write (current_file st) stamp st else st in
      let st := set_current_file (u16 (current_file st + 1)) st in
      let st := if MAX_FILES st <? current_file st then set_current_file 1 st else st in
      bind (prv_give_lock st) (fun _ st =>
      Ret SUCCESS st)))).

(** [load_historic_hk_data]. The file name is built from [current_file];
    the parameter [file_num] is not used. *)
Definition load_historic_hk_data (w : world) (file_num : Z)
    (all_hk_data : option All_systems_housekeeping) (st : hk_state)
    : outcome (Result * option All_systems_housekeeping) :=
  let length := filename_length (current_file st) in
  if negb (w_malloc w) then Ret (FAILURE, all_hk_data) st
  else
    let filename := snprintf_hk length (current_file st) in
    bind (read_hk_from_file filename all_hk_data st) (fun '(r, buf) st =>
    if negb (Result_nonzero r) then Ret (FAILURE, buf) st
    else Ret (SUCCESS, buf) st).

(** ** The capacity manager *)

(** One iteration of the clean-up loop of [set_max_files]. *)
Definition cleanup_step (w : world) (length new_max : Z) (i : Z)
    (acc : Result * hk_state) : Result * hk_state :=
  let '(result, st) := acc in
  let filename := snprintf_hk length i in
  match exists_ filename st with
  | FILE_EXISTS =>
      let '(rc, st') := remove w filename st in
      if (rc =? 0) && (new_max <? i) then (FAILURE, st') else (result, st')
  | FILE_NOT_EXIST => (result, st)
  end.

Definition set_max_files (w : world) (new_max : Z) (st : hk_state)
    : outcome Result :=
  if new_max <? 1 then Ret FAILURE st
  else
    bind (prv_get_lock st) (fun _ st =>
    let old_max := MAX_FILES st in
    let st := set_current_file 1 (set_MAX_FILES new_max st) in
    bind (prv_give_lock st) (fun _ st =>
    if old_max <? new_max then Ret SUCCESS st
    else
      let length := filename_length old_max in
      if negb (w_malloc w) then Ret FAILURE st
      else
        match for_u16 1 old_max (cleanup_step w length new_max) (SUCCESS, st) with
        | Some (result, st') => Ret result st'
        | None => Hang
        end)).

(** ** Platform

    What the headers that are not part of this file fix: the positions of
    the fields of a packet, the sub-service tags, the byte order of the
    host, the sizes of the sub-records and their byte-order conversions,
    and [cnv8_16]. *)
Record platform := mk_platform {
  SUBSERVICE_BYTE : Z;
  IN_DATA_BYTE : Z;
  STATUS_BYTE : Z;
  OUT_DATA_BYTE : Z;
  SET_MAX_FILES : Z;
  GET_MAX_FILES : Z;
  GET_HK : Z;
  host_big_endian : bool;
  cnv8_16 : Z -> Z -> Z;
  sizeof_hk_timeorder : Z;
  sizeof_Athena_hk : Z;
  sizeof_EPS_hk : Z;
  sizeof_UHF_hk : Z;
  sizeof_S_band_hk : Z;
  Athena_hk_convert_endianness : blob -> blob;
  prv_instantaneous_telemetry_letoh : blob -> blob;
  UHF_convert_endianness : blob -> blob;
  HAL_S_hk_convert_endianness : blob -> blob
}.

Definition bswap16 (x : Z) : Z :=
  Z.lor (Z.shiftl (Z.land x 255) 8) (Z.land (Z.shiftr x 8) 255).

Definition bswap32 (x : Z) : Z :=
  Z.lor (Z.lor (Z.shiftl (Z.land x 255) 24)
               (Z.shiftl (Z.land (Z.shiftr x 8) 255) 16))
        (Z.lor (Z.shiftl (Z.land (Z.shiftr x 16) 255) 8)
               (Z.land (Z.shiftr x 24) 255)).

Definition csp_hton16 (p : platform) (x : Z) : Z :=
  if host_big_endian p then x else bswap16 x.
Definition csp_ntoh16 (p : platform) (x : Z) : Z := csp_hton16 p x.
Definition csp_hton32 (p : platform) (x : Z) : Z :=
  if host_big_endian p then x else bswap32 x.

(** [packet->data[i]] and [packet->data16[k]]: the second is the
    [uint16_t] the host sees in bytes [2k] and [2k+1]. *)
Definition data8 (data : list Z) (i : Z) : Z := nth (Z.to_nat i) data 0 mod 256.

Definition data16 (p : platform) (data : list Z) (k : Z) : Z :=
  let b0 := data8 data (2 * k) in
  let b1 := data8 data (2 * k + 1) in
  if host_big_endian p then b0 * 256 + b1 else b1 * 256 + b0.

(** The bytes of a [uint16_t] as [memcpy] copies them. *)
Definition host_bytes16 (p : platform) (x : Z) : list Z :=
  if host_big_endian p then [x / 256; x mod 256] else [x mod 256; x / 256].

(** ** Retrieval *)

Definition convert_hk_endianness (p : platform) (hk : All_systems_housekeeping)
    : All_systems_housekeeping :=
  {| hk_timeorder :=
       {| UNIXtimestamp := csp_hton32 p (UNIXtimestamp (hk_timeorder hk));
          dataPosition := csp_hton16 p (dataPosition (hk_timeorder hk)) |};
     Athena_hk := Athena_hk_convert_endianness p (Athena_hk hk);
     EPS_hk := prv_instantaneous_telemetry_letoh p (EPS_hk hk);
     UHF_hk := UHF_convert_endianness p (UHF_hk hk);
     S_band_hk := HAL_S_hk_convert_endianness p (S_band_hk hk) |}.

(** The [while (limit > 0)] loop of [fetch_historic_hk_and_transmit]; [n]
    is [limit]. The destination of the load is declared as
    [All_systems_housekeeping* all_hk_data = {0};], a null pointer. *)
Fixpoint fetch_loop (p : platform) (w : world) (n : nat)
    (locked_max locked_before_id : Z) (st : hk_state) : outcome Result :=
  match n with
  | O => Ret SUCCESS st
  | S n' =>
      let locked_before_id := u16 (locked_before_id - 1) in
      let locked_before_id :=
        if locked_before_id =? 0 then locked_max else locked_before_id in
      let all_hk_data : option All_systems_housekeeping := None in
      bind (load_historic_hk_data w locked_before_id all_hk_data st)
        (fun '(r, all_hk_data) st =>
      if negb (Result_eqb r SUCCESS) then Ret FAILURE st
      else
        match all_hk_data with
        | None => Fault st
        | Some hk =>
            let hk := convert_hk_endianness p hk in
            let status := 0 in
            let used_size :=
              u16 (sizeof_hk_timeorder p + sizeof_Athena_hk p + sizeof_EPS_hk p
                   + sizeof_UHF_hk p + sizeof_S_band_hk p) in
            let packet := Pkt_hk (GET_HK p) status hk (used_size + 1) in
            if negb (w_csp_send w) then Ret FAILURE st
            else
              fetch_loop p w n' locked_max locked_before_id
                (set_conn_sent (conn_sent st ++ [packet]) st)
        end)
  end.

Definition fetch_historic_hk_and_transmit (p : platform) (w : world)
    (limit before_id before_time : Z) (st : hk_state) : outcome Result :=
  bind (prv_get_lock st) (fun _ st =>
  let locked_max := MAX_FILES st in
  let locked_before_id :=
    if negb (before_time =? 0)
    then get_file_id_from_timestamp st before_time
    else before_id in
  bind (prv_give_lock st) (fun _ st =>
  let locked_before_id :=
    if (locked_before_id =? 0) || (locked_max <? locked_before_id)
    then current_file st else locked_before_id in
  if locked_max <? limit then
    fetch_loop p w (Z.to_nat locked_max) locked_max locked_before_id st
  else if limit =? 0 then Ret SUCCESS st
  else fetch_loop p w (Z.to_nat limit) locked_max locked_before_id st)).

(** ** The dispatcher *)

(** Modelled from the spec: [SAT_returnState] is declared in [services.h],
    which is not among the sources; these are the three values the
    dispatcher returns (done, failed, illegal sub-service). *)
Inductive SAT_returnState := SATR_OK | SATR_ERROR | SATR_PKT_ILLEGAL_SUBSERVICE.

(** The three assignments of the [GET_HK] case. *)
Definition get_hk_arguments (p : platform) (data : list Z) : Z * Z * Z :=
  let limit := u16 (data16 p data (IN_DATA_BYTE p)) in
  let before_id := u16 (data16 p data (IN_DATA_BYTE p + 1)) in
  let before_time := u32 (data16 p data (IN_DATA_BYTE p + 2)) in
  (limit, before_id, before_time).

Definition store_bytes (data : list Z) (i : Z) (bytes : list Z) : list Z :=
  fold_left (fun (d : list Z) '(k, b) => <[(Z.to_nat i + k)%nat := b]> d)
            (imap (fun (k : nat) (b : Z) => (k, b)) bytes) data.

(** [csp_send(conn, packet, 50)] for a reply built in the request's
    buffer. *)
Definition send_reply (w : world) (data : list Z) (length : Z)
    (st : hk_state) : hk_state :=
  if w_csp_send w
  then set_conn_sent (conn_sent st ++ [Pkt_reply data length]) st
  else st.

Definition hk_service_app (p : platform) (w : world) (data : list Z)
    (st : hk_state) : outcome SAT_returnState :=
  let ser_subtype := data8 data (SUBSERVICE_BYTE p) in
  if ser_subtype =? SET_MAX_FILES p then
    let new_max_files :=
      u16 (cnv8_16 p (data8 data (IN_DATA_BYTE p)) (data8 data (IN_DATA_BYTE p + 1))) in
    let new_max_files := csp_ntoh16 p new_max_files in
    bind (set_max_files w new_max_files st) (fun r st =>
    let status := if negb (Result_eqb r SUCCESS) then 255 (* (int8_t)-1 *) else 0 in
    let data := store_bytes data (STATUS_BYTE p) [status] in
    Ret SATR_OK (send_reply w data 2 st))
  else if ser_subtype =? GET_MAX_FILES p then
    let new_max_files := csp_hton16 p (MAX_FILES st) in
    let data := store_bytes data (STATUS_BYTE p) [0] in
    let data := store_bytes data (OUT_DATA_BYTE p) (host_bytes16 p new_max_files) in
    Ret SATR_OK (send_reply w data 4 st)
  else if ser_subtype =? GET_HK p then
    let '(limit, before_id, before_time) := get_hk_arguments p data in
    bind (fetch_historic_hk_and_transmit p w limit before_id before_time st)
      (fun r st =>
    if negb (Result_eqb r SUCCESS) then Ret SATR_ERROR st else Ret SATR_OK st)
  else Ret SATR_PKT_ILLEGAL_SUBSERVICE st.

(** ** Scenarios

    Runs of the service in a world where every library call succeeds. *)

Definition devices0 : All_systems_housekeeping :=
  {| hk_timeorder := {| UNIXtimestamp := 0; dataPosition := 0 |};
     Athena_hk := [7]; EPS_hk := [8]; UHF_hk := [9]; S_band_hk := [10] |}.

Definition world_ok (now : Z) : world :=
  {| w_time := now; w_devices := devices0; w_malloc := true;
     w_realloc := true; w_fopen_wb := true; w_fwrite := 5;
     w_remove := fun _ => true; w_csp_send := true |}.

(** A write that returns [SUCCESS] at time [now]. *)
Definition write_at (now : Z) (st : hk_state) : option hk_state :=
  match populate_and_store_hk_data (world_ok now) st with
  | Ret SUCCESS st' => Some st'
  | _ => None
  end.

Fixpoint writes_at (stamps : list Z) (st : hk_state) : option hk_state :=
  match stamps with
  | [] => Some st
  | now :: stamps' =>
      match write_at now st with
      | Some st' => writes_at stamps' st'
      | None => None
      end
  end.

(** A resize that returns [SUCCESS]. *)
Definition resize_to (new_max : Z) (st : hk_state) : option hk_state :=
  match set_max_files (world_ok 0) new_max st with
  | Ret SUCCESS st' => Some st'
  | _ => None
  end.

(** The service started on an empty medium, then [stamps] written. *)
Definition fresh_then (heap : Z -> Z) (stamps : list Z) : option hk_state :=
  writes_at stamps (initial_state heap ∅).

(** The same with the capacity first set to [cap]. *)
Definition capacity_then (heap : Z -> Z) (cap : Z) (stamps : list Z)
    : option hk_state :=
  match resize_to cap (initial_state heap ∅) with
  | Some st => writes_at stamps st
  | None => None
  end.

(** Modelled from the spec: the packet macros are in a missing header. A
    platform for the closed examples: the sub-service tag is the first
    payload byte, the status byte follows it on responses, the request
    payload starts after the tag; the sub-record sizes are those of the
    comments of [fetch_historic_hk_and_transmit]. *)
Definition platform0 (big_endian : bool) : platform :=
  {| SUBSERVICE_BYTE := 0; IN_DATA_BYTE := 1; STATUS_BYTE := 1;
     OUT_DATA_BYTE := 2;
     SET_MAX_FILES := 0; GET_MAX_FILES := 1; GET_HK := 2;
     host_big_endian := big_endian;
     cnv8_16 := fun b0 b1 => if big_endian then b0 * 256 + b1 else b1 * 256 + b0;
     sizeof_hk_timeorder := 6; sizeof_Athena_hk := 24; sizeof_EPS_hk := 236;
     sizeof_UHF_hk := 55; sizeof_S_band_hk := 32;
     Athena_hk_convert_endianness := fun b => b;
     prv_instantaneous_telemetry_letoh := fun b => b;
     UHF_convert_endianness := fun b => b;
     HAL_S_hk_convert_endianness := fun b => b |}.

(** The slot a record says it was written into, and its time stamp. *)
Definition record_slot (d : All_systems_housekeeping) : Z :=
  dataPosition (hk_timeorder d).
Definition record_stamp (d : All_systems_housekeeping) : Z :=
  UNIXtimestamp (hk_timeorder d).

(** A record is persisted under slot [s] when the file of slot [s] is on
    the medium. *)
Definition persisted (st : hk_state) (s : Z) : Prop :=
  is_Some (files st !! hk_filename s).

(** ... and was deleted between [st] and [st'] when it was on the medium
    in [st] and is not in [st']. *)
Definition deleted (st st' : hk_state) (s : Z) : Prop :=
  persisted st s ∧ files st' !! hk_filename s = None.

(** The number of decimal digits of [x], by the loop of [num_digits]. *)
Fixpoint ndigits (fuel : nat) (x : N) : nat :=
  match fuel with
  | O => O
  | S fuel' => if (x =? 0)%N then O else S (ndigits fuel' (x / 10)%N)
  end.

(** The name of the file of slot [i] when nothing is cut off. *)
Definition full_name (i : Z) : string :=
  base_file +:+ pretty (Z.to_N i) +:+ extension.

(** Two states with the same globals, the files apart. *)
Definition same_globals (st st' : hk_state) : Prop :=
  MAX_FILES st' = MAX_FILES st ∧ current_file st' = current_file st
  ∧ timestamps st' = timestamps st ∧ timestamps_at st' = timestamps_at st
  ∧ hk_timestamp_array_size st' = hk_timestamp_array_size st
  ∧ f_count_lock st' = f_count_lock st ∧ conn_sent st' = conn_sent st.

(** The memory around the index before the service stores anything in
    it, for the closed examples. *)
Definition heap0 : Z -> Z := fun _ => 2863311530.

(** The deletions of a resize as the specification words them: of the
    persisted records, exactly those with a slot id in
    [(new_max, old_max]] go, and only when the capacity decreases. *)
Definition deletes_as_specified (old_max new_max : Z) (st st' : hk_state) : Prop :=
  forall s, 1 <= s < 65536 -> persisted st s ->
    (deleted st st' s <-> new_max < old_max /\ new_max < s <= old_max).

(** Capacity 3 with its three slots written at 100, 130 and 160, and the
    same after a fourth write at 190. *)
Definition store_3_full : hk_state :=
  default (initial_state heap0 ∅) (capacity_then heap0 3 [100; 130; 160]).
Definition store_3_wrapped : hk_state :=
  default (initial_state heap0 ∅) (capacity_then heap0 3 [100; 130; 160; 190]).

(** Worlds in which one library call of the write path fails. *)
Definition world_fopen_fails (now : Z) : world :=
  {| w_time := now; w_devices := devices0; w_malloc := true;
     w_realloc := true; w_fopen_wb := false; w_fwrite := 0;
     w_remove := fun _ => true; w_csp_send := true |}.

Definition world_fwrite_fails (now : Z) : world :=
  {| w_time := now; w_devices := devices0; w_malloc := true;
     w_realloc := true; w_fopen_wb := true; w_fwrite := 0;
     w_remove := fun _ => true; w_csp_send := true |}.

Definition world_malloc_fails (now : Z) : world :=
  {| w_time := now; w_devices := devices0; w_malloc := false;
     w_realloc := true; w_fopen_wb := true; w_fwrite := 5;
     w_remove := fun _ => true; w_csp_send := true |}.

Definition world_remove_fails (now : Z) : world :=
  {| w_time := now; w_devices := devices0; w_malloc := true;
     w_realloc := true; w_fopen_wb := true; w_fwrite := 5;
     w_remove := fun _ => false; w_csp_send := true |}.

(** The GET-HISTORY request as the specification lays it out: the
    sub-service tag, then a 2-byte limit, a 2-byte beforeSlotId and a
    4-byte beforeTimestamp at consecutive positions, each in network
    (big-endian) byte order. *)
Definition be16 (x : Z) : list Z := [x / 256 mod 256; x mod 256].
Definition be32 (x : Z) : list Z :=
  [x / 16777216 mod 256; x / 65536 mod 256; x / 256 mod 256; x mod 256].
Definition spec_get_history_request (tag limit before_id before_time : Z)
    : list Z :=
  tag :: be16 limit ++ be16 before_id ++ be32 before_time.

(** The state an outcome leaves behind, and what was sent on the way. *)
Definition final_state {A : Type} (o : outcome A) : option hk_state :=
  match o with
  | Ret _ st | Fault st => Some st
  | Blocked | Hang => None
  end.

(** ** The server task

    The inner loop of [housekeeping_service]: the packets read from one
    accepted connection are handed to [hk_service_app] one after the
    other, whatever it returns (a result other than [SATR_OK] is only
    logged); the loop ends when [csp_read] returns no packet. Each packet
    comes with the world its handling meets. *)
Fixpoint serve_connection (p : platform) (packets : list (world * list Z))
    (st : hk_state) : outcome unit :=
  match packets with
  | [] => Ret tt st
  | (w, data) :: packets' =>
      bind (hk_service_app p w data st) (fun _ st =>
      serve_connection p packets' st)
  end.

(** ** Vocabulary of the further properties *)


(** The slot after the cursor, cyclically. *)
Definition next_slot (st : hk_state) : Z :=
  if current_file st =? MAX_FILES st then 1 else current_file st + 1.

(** The capacity and the cursor are in range. Capacity 65535 is left out:
    the loops over a [uint16_t] counter do not exit with that bound. *)
Definition cursor_ok (st : hk_state) : Prop :=
  1 <= MAX_FILES st < 65535 /\ 1 <= current_file st <= MAX_FILES st.

(** The index pointer is null or live and the recorded size is in range. *)
Definition index_ok (st : hk_state) : Prop :=
  timestamps st <> ts_freed /\ 0 <= hk_timestamp_array_size st < 65535.

(** The library calls of a write succeed ([fwrite] apart). *)
Definition write_calls_succeed (w : world) : Prop :=
  w_malloc w = true /\ w_realloc w = true /\ w_fopen_wb w = true.

(** Everything but the index memory is the same in [st] and [st']. *)
Definition same_but_index (st st' : hk_state) : Prop :=
  MAX_FILES st' = MAX_FILES st /\ current_file st' = current_file st
  /\ f_count_lock st' = f_count_lock st /\ files st' = files st
  /\ conn_sent st' = conn_sent st.


(** The file of the cursor's slot is on the medium. *)
Definition persisted_at_cursor (st : hk_state) : Prop :=
  is_Some (files st !! hk_filename (current_file st)).

(** [f] holds of the [n] integers from [i] on. *)
Fixpoint all_below (n : nat) (f : Z -> bool) (i : Z) : bool :=
  match n with
  | O => true
  | S n' => f i && all_below n' f (i + 1)
  end.

(** * Properties *)

(** ** Loops *)

Lemma u16_small (x : Z) : 0 <= x < 65536 -> u16 x = x.
Proof. intros H. unfold u16. apply Z.mod_small. lia. Qed.

Lemma u16_range (x : Z) : 0 <= u16 x < 65536.
Proof. unfold u16. apply Z.mod_pos_bound. lia. Qed.

Lemma u32_range (x : Z) : 0 <= u32 x < 4294967296.
Proof. unfold u32. apply Z.mod_pos_bound. lia. Qed.

Lemma u32_small (x : Z) : 0 <= x < 4294967296 -> u32 x = x.
Proof. intros H. unfold u32. apply Z.mod_small. lia. Qed.

(** A loop whose bound is below 65535 exits, after the iterations for
    [i], ..., [hi]. *)
Lemma for_u16_steps_exit {S : Type} (fuel : nat) (i hi : Z)
    (body : Z -> S -> S) (s : S) :
  0 <= i -> hi < 65535 -> (Z.to_nat (hi + 1 - i) <= fuel)%nat ->
  for_u16_steps fuel i hi body s = for_u16 i hi body s.
Proof.
  unfold for_u16. intros Hi Hhi.
  replace (hi =? 65535) with false by (symmetry; apply Z.eqb_neq; lia).
  revert i s Hi. induction fuel as [|fuel IH]; intros i s Hi Hfuel; simpl.
  - destruct (Z.leb_spec i hi) as [Hle|Hgt]; [lia|].
    rewrite seqZ_nil by lia. reflexivity.
  - destruct (Z.leb_spec i hi) as [Hle|Hgt].
    + rewrite (seqZ_cons i) by lia. simpl.
      rewrite u16_small by lia. rewrite IH by lia.
      do 3 f_equal. lia.
    + rewrite seqZ_nil by lia. reflexivity.
Qed.

(** A loop whose bound is 65535 does not exit, however long it runs. *)
Lemma for_u16_steps_hang {S : Type} (fuel : nat) (i : Z)
    (body : Z -> S -> S) (s : S) :
  0 <= i < 65536 -> for_u16_steps fuel i 65535 body s = None.
Proof.
  revert i s. induction fuel as [|fuel IH]; intros i s Hi; simpl.
  - destruct (Z.leb_spec i 65535); [reflexivity | lia].
  - destruct (Z.leb_spec i 65535); [| lia].
    apply IH. apply u16_range.
Qed.

(** The binary search has enough fuel: more fuel changes nothing. *)
Lemma search_loop_fuel (fuel : nat) (st : hk_state) (timestamp left right : Z)
    (reads : list Z) :
  0 <= left -> right < 65536 -> (Z.to_nat (right - left) <= fuel)%nat ->
  search_loop (S fuel) st timestamp left right reads
  = search_loop fuel st timestamp left right reads.
Proof.
  revert left right reads.
  induction fuel as [|fuel IH]; intros left right reads Hl Hr Hfuel.
  - simpl. destruct (Z.ltb_spec left right); [lia | reflexivity].
  - change (search_loop (S (S fuel)) st timestamp left right reads)
      with (if left <? right then
              let middle := u16 ((left + right) / 2) in
              let idx := middle - (current_file st - 1) in
              if ts_read st idx <? timestamp
              then search_loop (S fuel) st timestamp (u16 (middle + 1)) right (reads ++ [idx])
              else search_loop (S fuel) st timestamp left middle (reads ++ [idx])
            else (left, reads)).
    change (search_loop (S fuel) st timestamp left right reads)
      with (if left <? right then
              let middle := u16 ((left + right) / 2) in
              let idx := middle - (current_file st - 1) in
              if ts_read st idx <? timestamp
              then search_loop fuel st timestamp (u16 (middle + 1)) right (reads ++ [idx])
              else search_loop fuel st timestamp left middle (reads ++ [idx])
            else (left, reads)).
    destruct (Z.ltb_spec left right) as [Hlt|Hge]; [| reflexivity].
    cbv zeta.
    assert (Hm : left <= (left + right) / 2 < right).
    { split; [apply Z.div_le_lower_bound | apply Z.div_lt_upper_bound]; lia. }
    rewrite (u16_small ((left + right) / 2)) by lia.
    rewrite (u16_small ((left + right) / 2 + 1)) by lia.
    destruct (_ <? timestamp); apply IH; lia.
Qed.

(** ** File names *)

Example hk_filename_134 : hk_filename 134 = "tempHKdata134.TMP"%string.
Proof. reflexivity. Qed.

Lemma string_length_append (a b : string) :
  String.length (a +:+ b) = (String.length a + String.length b)%nat.
Proof. induction a as [|c a IH]; simpl; [reflexivity | by rewrite IH]. Qed.

Lemma substring_all (s : string) (n : nat) :
  (String.length s <= n)%nat -> String.substring 0 n s = s.
Proof.
  revert n. induction s as [|c s IH]; intros n Hn.
  - destruct n; reflexivity.
  - destruct n as [|n]; simpl in *; [lia|]. rewrite IH by lia. reflexivity.
Qed.

Lemma string_append_inj_r (a b c : string) : a +:+ c = b +:+ c -> a = b.
Proof.
  intros H.
  assert (Hlen : String.length a = String.length b).
  { apply (f_equal String.length) in H. rewrite !string_length_append in H. lia. }
  revert b H Hlen. induction a as [|x a IH]; intros [|y b] H Hlen;
    simpl in *; try discriminate; [reflexivity|].
  injection H as -> H. f_equal. apply IH; [exact H | lia].
Qed.

Lemma string_append_inj_l (a b c : string) : a +:+ b = a +:+ c -> b = c.
Proof.
  induction a as [|x a IH]; simpl; intros H; [exact H|].
  injection H as H. apply IH, H.
Qed.

Lemma ndigits_mono (fuel : nat) (x y : N) :
  (x <= y)%N -> (ndigits fuel x <= ndigits fuel y)%nat.
Proof.
  revert x y. induction fuel as [|fuel IH]; intros x y Hxy; simpl; [lia|].
  destruct (N.eqb_spec x 0) as [->|Hx]; [lia|].
  destruct (N.eqb_spec y 0) as [->|Hy]; [lia|].
  apply le_n_S, IH. apply N.Div0.div_le_mono. exact Hxy.
Qed.

Lemma ndigits_le_fuel (fuel : nat) (x : N) : (ndigits fuel x <= fuel)%nat.
Proof.
  revert x. induction fuel as [|fuel IH]; intros x; simpl; [lia|].
  destruct (x =? 0)%N; [lia|]. specialize (IH (x / 10)%N). lia.
Qed.

(** The loop of [num_digits] counts decimal digits. *)
Lemma num_digits_loop_ndigits (fuel : nat) (num count : Z) :
  0 <= num -> 0 <= count -> count + Z.of_nat fuel < 65536 ->
  num_digits_loop fuel num count = count + Z.of_nat (ndigits fuel (Z.to_N num)).
Proof.
  revert num count. induction fuel as [|fuel IH]; intros num count Hn Hc Hb.
  - simpl. lia.
  - cbn [num_digits_loop ndigits].
    destruct (Z.eqb_spec num 0) as [->|Hnz].
    + simpl. lia.
    + replace (Z.to_N num =? 0)%N with false by (symmetry; apply N.eqb_neq; lia).
      rewrite Z.quot_div_nonneg by lia.
      rewrite u16_small by lia.
      rewrite IH; [| apply Z.div_pos; lia | lia | lia].
      replace (Z.to_N (num / 10)) with (Z.to_N num / 10)%N
        by (rewrite Z2N.inj_div by lia; reflexivity).
      lia.
Qed.

Lemma num_digits_ndigits (num : Z) :
  0 <= num -> num_digits num = Z.of_nat (ndigits 11 (Z.to_N num)).
Proof.
  intros H. unfold num_digits. rewrite num_digits_loop_ndigits by lia. lia.
Qed.

Lemma num_digits_mono (i j : Z) :
  0 <= i <= j -> num_digits i <= num_digits j.
Proof.
  intros H. rewrite !num_digits_ndigits by lia.
  apply inj_le, ndigits_mono. lia.
Qed.

Lemma num_digits_bound (i : Z) : 0 <= i -> 0 <= num_digits i <= 11.
Proof.
  intros H. rewrite num_digits_ndigits by lia.
  pose proof (ndigits_le_fuel 11 (Z.to_N i)). lia.
Qed.

(** [%hu] prints as many characters as [num_digits] counts. *)
Lemma pretty_N_go_length (fuel : nat) (x : N) (s : string) :
  (x < 10 ^ N.of_nat fuel)%N ->
  String.length (pretty_N_go x s) = (ndigits fuel x + String.length s)%nat.
Proof.
  revert x s. induction fuel as [|fuel IH]; intros x s Hx.
  - assert (x = 0%N) as -> by (simpl in Hx; lia).
    rewrite pretty_N_go_0. reflexivity.
  - cbn [ndigits]. destruct (N.eqb_spec x 0) as [->|Hnz].
    + rewrite pretty_N_go_0. reflexivity.
    + rewrite pretty_N_go_step by lia.
      rewrite IH; [simpl; lia|].
      apply N.Div0.div_lt_upper_bound.
      rewrite Nat2N.inj_succ, N.pow_succ_r' in Hx. exact Hx.
Qed.

Lemma pretty_length (i : Z) :
  1 <= i < 65536 ->
  Z.of_nat (String.length (pretty (Z.to_N i))) = num_digits i.
Proof.
  intros H. rewrite num_digits_ndigits by lia.
  unfold pretty, pretty_N. destruct (decide (Z.to_N i = 0%N)) as [E|_]; [lia|].
  rewrite (pretty_N_go_length 11) by (change (10 ^ N.of_nat 11)%N with 100000000000%N; lia).
  change (String.length "") with 0%nat. lia.
Qed.

(** The buffer sized for [j] holds the whole name of every slot up to
    [j]. *)
Lemma snprintf_hk_full (j i : Z) :
  1 <= i <= j -> j < 65536 -> snprintf_hk (filename_length j) i = full_name i.
Proof.
  intros Hi Hj. unfold snprintf_hk, filename_length, full_name.
  rewrite (u16_small i) by lia.
  pose proof (num_digits_bound j ltac:(lia)) as Hb.
  pose proof (num_digits_mono i j ltac:(lia)) as Hm.
  pose proof (pretty_length i ltac:(lia)) as Hp.
  change (strlen base_file) with 10. change (strlen extension) with 4.
  rewrite u16_small by lia.
  apply substring_all.
  rewrite !string_length_append.
  change (String.length base_file) with 10%nat.
  change (String.length extension) with 4%nat. lia.
Qed.

Lemma hk_filename_full (i : Z) : 1 <= i < 65536 -> hk_filename i = full_name i.
Proof. intros H. apply snprintf_hk_full; lia. Qed.

Lemma full_name_inj (i j : Z) : 0 <= i -> 0 <= j -> full_name i = full_name j -> i = j.
Proof.
  unfold full_name. intros Hi Hj H.
  apply string_append_inj_l, string_append_inj_r in H. apply (inj pretty) in H. lia.
Qed.

(** ** The clean-up loop of [set_max_files] *)

Lemma cleanup_step_files (w : world) (len new_max i : Z)
    (acc : Result * hk_state) (k : string) :
  files (snd (cleanup_step w len new_max i acc)) !! k
  = if decide (k = snprintf_hk len i ∧ w_remove w k = true) then None
    else files (snd acc) !! k.
Proof.
  destruct acc as [result st]. unfold cleanup_step, exists_, remove.
  destruct (files st !! snprintf_hk len i) eqn:E.
  - destruct (w_remove w (snprintf_hk len i)) eqn:R.
    + destruct (_ && _); simpl;
        (case_decide as D; [destruct D as [-> _]; apply lookup_delete_eq|];
         apply lookup_delete_ne; intros <-; apply D; split; [reflexivity | exact R]).
    + simpl. case_decide as D; [|reflexivity].
      destruct D as [-> D]. congruence.
  - simpl. case_decide as D; [|reflexivity].
    destruct D as [-> _]. exact E.
Qed.

Lemma cleanup_fold_files (w : world) (len new_max : Z) (l : list Z)
    (acc : Result * hk_state) (k : string) :
  files (snd (fold_left (fun s j => cleanup_step w len new_max j s) l acc)) !! k
  = if decide (k ∈ (snprintf_hk len <$> l) ∧ w_remove w k = true) then None
    else files (snd acc) !! k.
Proof.
  revert acc. induction l as [|i l IH]; intros acc; cbn [fold_left].
  - rewrite fmap_nil. case_decide as D; [|reflexivity].
    destruct D as [D _]. inversion D.
  - rewrite IH, cleanup_step_files, fmap_cons.
    repeat case_decide; try reflexivity; exfalso;
      rewrite elem_of_cons in *; tauto.
Qed.

Lemma cleanup_step_globals (w : world) (len new_max i : Z)
    (acc : Result * hk_state) :
  same_globals (snd acc) (snd (cleanup_step w len new_max i acc)).
Proof.
  destruct acc as [result st]. unfold cleanup_step, remove, same_globals.
  destruct (exists_ _ st); [simpl; tauto|].
  destruct (w_remove w _); destruct (_ && _); simpl; tauto.
Qed.

Lemma cleanup_fold_globals (w : world) (len new_max : Z) (l : list Z)
    (acc : Result * hk_state) :
  same_globals (snd acc)
    (snd (fold_left (fun s j => cleanup_step w len new_max j s) l acc)).
Proof.
  revert acc. induction l as [|i l IH]; intros acc; simpl.
  - unfold same_globals; tauto.
  - specialize (IH (cleanup_step w len new_max i acc)).
    pose proof (cleanup_step_globals w len new_max i acc) as H.
    unfold same_globals in *. intuition congruence.
Qed.

(** The names the loop visits are the names of slots [1] to [old_max]. *)
Lemma cleanup_names (old_max s : Z) :
  0 <= old_max < 65536 -> 1 <= s < 65536 ->
  hk_filename s ∈ (snprintf_hk (filename_length old_max) <$> seqZ 1 (old_max + 1 - 1))
  <-> s <= old_max.
Proof.
  intros Ho Hs. rewrite list_elem_of_fmap. split.
  - intros (i & E & Hi). apply elem_of_seqZ in Hi.
    rewrite hk_filename_full in E by lia.
    rewrite snprintf_hk_full in E by lia.
    apply full_name_inj in E; lia.
  - intros Hle. exists s. split.
    + rewrite hk_filename_full, snprintf_hk_full by lia. reflexivity.
    + apply elem_of_seqZ. lia.
Qed.

(** What [set_max_files] does to the store, for every capacity it
    accepts. *)
Lemma set_max_files_store (w : world) (st : hk_state) (new_max : Z) :
  1 <= new_max < 65536 -> 0 <= MAX_FILES st < 65535 -> f_count_lock st = false ->
  exists r st',
    set_max_files w new_max st = Ret r st'
    /\ current_file st' = 1 /\ MAX_FILES st' = new_max
    /\ f_count_lock st' = false
    /\ timestamps st' = timestamps st
    /\ timestamps_at st' = timestamps_at st
    /\ hk_timestamp_array_size st' = hk_timestamp_array_size st
    /\ forall s, 1 <= s < 65536 ->
         files st' !! hk_filename s
         = if decide (new_max <= MAX_FILES st /\ s <= MAX_FILES st
                      /\ w_malloc w = true /\ w_remove w (hk_filename s) = true)
           then None else files st !! hk_filename s.
Proof.
  intros Hn Ho Hl. unfold set_max_files, prv_get_lock, prv_give_lock.
  replace (new_max <? 1) with false by (symmetry; apply Z.ltb_ge; lia).
  rewrite Hl. cbn [bind].
  cbn [MAX_FILES set_f_count_lock set_current_file set_MAX_FILES].
  destruct (Z.ltb_spec (MAX_FILES st) new_max) as [Hlt|Hge].
  { eexists _, _. split; [reflexivity|]. cbn.
    repeat split; try reflexivity.
    intros s Hs. case_decide as D; [lia | reflexivity]. }
  destruct (w_malloc w) eqn:Hm; cbn [negb].
  2:{ eexists _, _. split; [reflexivity|]. cbn.
      repeat split; try reflexivity.
      intros s Hs. case_decide as D; [|reflexivity].
      destruct D as (_ & _ & D & _). discriminate. }
  unfold for_u16.
  replace (MAX_FILES st =? 65535) with false by (symmetry; apply Z.eqb_neq; lia).
  match goal with
  | |- context [fold_left ?f ?l ?a] =>
      pose proof (cleanup_fold_globals w (filename_length (MAX_FILES st)) new_max l a) as G;
      pose proof (cleanup_fold_files w (filename_length (MAX_FILES st)) new_max l a) as F;
      destruct (fold_left f l a) as [result st'] eqn:E
  end.
  cbn [snd] in G, F. unfold same_globals in G. cbn in G.
  destruct G as (G1 & G2 & G3 & G4 & G5 & G6 & G7).
  exists result, st'. split; [reflexivity|].
  repeat split; try assumption.
  intros s Hs. rewrite F. cbn [files].
  pose proof (cleanup_names (MAX_FILES st) s ltac:(lia) Hs) as N.
  repeat case_decide; try reflexivity; exfalso; intuition lia.
Qed.

(** ** C2: what a resize deletes *)

(** C2, as the specification states it, fails: with capacity 3 and the
    three slots written, the resize to capacity 2 deletes the record of
    slot 1, which is not in (2, 3]. *)
Lemma C2_resize_deletes_outside_range :
  exists r st',
    capacity_then heap0 3 [100; 130; 160] = Some store_3_full
    /\ set_max_files (world_ok 0) 2 store_3_full = Ret r st'
    /\ MAX_FILES store_3_full = 3
    /\ ~ deletes_as_specified 3 2 store_3_full st'.
Proof.
  eexists _, _. split; [vm_compute; reflexivity|].
  split; [vm_compute; reflexivity|].
  split; [vm_compute; reflexivity|].
  intros H. specialize (H 1 ltac:(lia)).
  match type of H with
  | ?P -> _ => assert (HP : P) by (vm_compute; eexists; reflexivity)
  end.
  destruct (H HP) as [Hdel _].
  assert (2 < 3 /\ 2 < 1 <= 3) as (_ & Hlt & _); [| lia].
  apply Hdel. split; [exact HP | vm_compute; reflexivity].
Qed.

(** C2, amended. A resize that is entered with the mutex free resets the
    write cursor to 1 and stores the new capacity, whatever the two
    capacities are. When the capacity grows no record is deleted. When it
    shrinks, the clean-up visits every slot from 1 to the old capacity,
    not only the slots above the new capacity: a persisted record is
    deleted if and only if its slot id is at most the old capacity and the
    file system carries the removal out (the buffer for the file name
    having been allocated). *)
Theorem C2_resize_cursor_and_deletions (w : world) (st : hk_state) (new_max : Z) :
  1 <= new_max < 65536 -> 0 <= MAX_FILES st < 65535 -> f_count_lock st = false ->
  exists r st',
    set_max_files w new_max st = Ret r st'
    /\ current_file st' = 1 /\ MAX_FILES st' = new_max
    /\ (MAX_FILES st < new_max -> files st' = files st)
    /\ (new_max < MAX_FILES st ->
        forall s, 1 <= s < 65536 -> persisted st s ->
          (deleted st st' s <->
             s <= MAX_FILES st /\ w_malloc w = true
             /\ w_remove w (hk_filename s) = true)).
Proof.
  intros Hn Ho Hl.
  destruct (set_max_files_store w st new_max Hn Ho Hl)
    as (r & st' & E & Hc & Hm & _ & _ & _ & _ & F).
  exists r, st'. split; [exact E|]. split; [exact Hc|]. split; [exact Hm|].
  split.
  - intros Hlt. revert E. unfold set_max_files, prv_get_lock, prv_give_lock.
    replace (new_max <? 1) with false by (symmetry; apply Z.ltb_ge; lia).
    rewrite Hl. cbn [bind MAX_FILES set_f_count_lock set_current_file set_MAX_FILES].
    replace (MAX_FILES st <? new_max) with true by (symmetry; apply Z.ltb_lt; lia).
    intros [= _ <-]. reflexivity.
  - intros Hlt s Hs Hp. unfold deleted. rewrite (F s Hs).
    destruct (decide (new_max <= MAX_FILES st /\ s <= MAX_FILES st
                      /\ w_malloc w = true /\ w_remove w (hk_filename s) = true))
      as [D|D].
    + destruct D as (D1 & D2 & D3 & D4).
      split; [intros _; repeat split; assumption | intros _; split; [exact Hp | reflexivity]].
    + split.
      * intros [_ Hnone]. destruct Hp as [x Hx]. congruence.
      * intros (H1 & H2 & H3). exfalso. apply D. repeat split; [lia | | |]; assumption.
Qed.

(** The amended C2 at work: capacity 3 with its three slots written,
    resized to 2. *)
Lemma C2_resize_cursor_and_deletions_witness :
  (1 <= 2 < 65536 /\ 0 <= MAX_FILES store_3_full < 65535
   /\ f_count_lock store_3_full = false)
  /\ exists r st',
    set_max_files (world_ok 0) 2 store_3_full = Ret r st'
    /\ current_file st' = 1 /\ MAX_FILES st' = 2
    /\ (MAX_FILES store_3_full < 2 -> files st' = files store_3_full)
    /\ (2 < MAX_FILES store_3_full ->
        forall s, 1 <= s < 65536 -> persisted store_3_full s ->
          (deleted store_3_full st' s <->
             s <= MAX_FILES store_3_full /\ w_malloc (world_ok 0) = true
             /\ w_remove (world_ok 0) (hk_filename s) = true)).
Proof.
  assert (H1 : 1 <= 2 < 65536) by lia.
  assert (H2 : 0 <= MAX_FILES store_3_full < 65535)
    by (vm_compute; split; [discriminate | reflexivity]).
  assert (H3 : f_count_lock store_3_full = false) by (vm_compute; reflexivity).
  split; [exact (conj H1 (conj H2 H3))|].
  exact (C2_resize_cursor_and_deletions (world_ok 0) store_3_full 2 H1 H2 H3).
Defined.

(** Two more facts about the clean-up, which the amended C2 leaves aside.
    The orphan report is the wrong way round: resizing the full store of
    capacity 3 to 2 returns [FAILURE] when the file of slot 3 is removed,
    and [SUCCESS] when it cannot be removed and stays on the medium. *)
Lemma orphan_report_is_inverted :
  (exists st',
     set_max_files (world_ok 0) 2 store_3_full = Ret FAILURE st'
     /\ files st' !! hk_filename 3 = None)
  /\ (exists st',
     set_max_files (world_remove_fails 0) 2 store_3_full = Ret SUCCESS st'
     /\ is_Some (files st' !! hk_filename 3)).
Proof.
  split; eexists; (split; [vm_compute; reflexivity|]).
  - vm_compute. reflexivity.
  - vm_compute. eexists. reflexivity.
Qed.

(** A resize to the capacity the store already has empties the medium. *)
Lemma resize_to_same_capacity_deletes :
  exists st',
    set_max_files (world_ok 0) 3 store_3_full = Ret SUCCESS st'
    /\ files st' = ∅
    /\ map (fun s => bool_decide (persisted store_3_full s)) [1; 2; 3]
       = [true; true; true].
Proof.
  eexists. split; [vm_compute; reflexivity|]. split; vm_compute; reflexivity.
Qed.

(** ** C1: loading a slot *)

(** [load_historic_hk_data] does not look at the slot it is asked for. *)
Lemma load_historic_hk_data_file_num (w : world) (n m : Z)
    (buf : option All_systems_housekeeping) (st : hk_state) :
  load_historic_hk_data w n buf st = load_historic_hk_data w m buf st.
Proof. reflexivity. Qed.

(** C1 fails on the code. One record is written into the empty store: it
    lands in slot 1, its file is on the medium, and the cursor moves to
    slot 2. Loading slot 1 then opens the file of slot 2, which does not
    exist, and returns [FAILURE] with the caller's buffer untouched. *)
Theorem C1_load_after_write_fails :
  forall (heap : Z -> Z) (buf : All_systems_housekeeping),
  exists st,
    fresh_then heap [100] = Some st
    /\ current_file st = 2
    /\ files st !! hk_filename 1
       = Some (hk_items {| hk_timeorder := {| UNIXtimestamp := 100; dataPosition := 1 |};
                           Athena_hk := Athena_hk devices0;
                           EPS_hk := EPS_hk devices0;
                           UHF_hk := UHF_hk devices0;
                           S_band_hk := S_band_hk devices0 |})
    /\ load_historic_hk_data (world_ok 0) 1 (Some buf) st
       = Ret (FAILURE, Some buf) st.
Proof.
  intros heap buf. eexists. split; [vm_compute; reflexivity|].
  split; [reflexivity|]. split; [vm_compute; reflexivity|].
  vm_compute. reflexivity.
Qed.

(** The other half of C1 fails too. Capacity 3, one record written, then
    the capacity raised to 5: slot 4 was never written, and loading it
    returns the record of slot 1. *)
Lemma load_of_a_slot_never_written :
  forall buf : All_systems_housekeeping,
  exists st st' got,
    capacity_then heap0 3 [100] = Some st
    /\ resize_to 5 st = Some st'
    /\ files st' !! hk_filename 4 = None
    /\ load_historic_hk_data (world_ok 0) 4 (Some buf) st'
       = Ret (SUCCESS, Some got) st'
    /\ record_slot got = 1 /\ record_stamp got = 100.
Proof.
  intros buf. eexists _, _, _. split; [vm_compute; reflexivity|].
  split; [vm_compute; reflexivity|]. split; [vm_compute; reflexivity|].
  split; [vm_compute; reflexivity|]. split; reflexivity.
Qed.

(** ** C3 and C10: the search in the timestamp index *)

(** The reads a call makes before [select_position] stay in the list. *)
Lemma select_position_reads (st : hk_state) (timestamp left : Z) (reads : list Z) (i : Z) :
  In i reads -> In i (snd (select_position st timestamp left reads)).
Proof.
  intros H. unfold select_position.
  repeat match goal with
         | |- context [if ?c then _ else _] => destruct c
         end; cbn [snd]; rewrite ?in_app_iff; tauto.
Qed.

(** With one record in the store the search answers 0, whatever the
    target and whatever the memory holds. *)
Lemma one_record_is_never_found (st : hk_state) (timestamp : Z) :
  timestamps st <> ts_NULL -> current_file st = 2 -> ts_read st 2 = 0 ->
  get_file_id_from_timestamp st timestamp = 0.
Proof.
  intros Hp Hc Hz. unfold get_file_id_from_timestamp, get_file_id_trace.
  destruct (timestamps st); [congruence | |];
    rewrite Hc, Hz; cbn [Z.eqb Pos.eqb];
    change (Z.to_nat (u16 (2 - 1) - 1)) with 0%nat; cbn [search_loop];
    unfold select_position; rewrite Hc;
    change (u16 (1 - (2 - 1))) with 0; change (1 <? 0) with false; cbv iota;
    destruct (_ <=? threshold); reflexivity.
Qed.

(** With two records in a store that has not wrapped, the first probe of
    the search is at index -1. *)
Lemma two_records_probe_below_the_array (st : hk_state) (timestamp : Z) :
  timestamps st <> ts_NULL -> current_file st = 3 -> ts_read st 3 = 0 ->
  In (-1) (snd (get_file_id_trace st timestamp)).
Proof.
  intros Hp Hc Hz. unfold get_file_id_trace. cbv zeta.
  generalize (u32 timestamp). clear timestamp. intros timestamp.
  assert (E :
    In (-1) (snd (let '(left', reads') :=
                    search_loop (Z.to_nat (u16 (3 - 1) - 1)) st timestamp 1 (u16 (3 - 1)) [3]
                  in select_position st timestamp left' reads'))).
  { change (Z.to_nat (u16 (3 - 1) - 1)) with 1%nat.
    change (u16 (3 - 1)) with 2. cbn [search_loop]. rewrite Hc.
    change (1 <? 2) with true. cbv iota.
    change (u16 ((1 + 2) / 2) - (3 - 1)) with (-1).
    destruct (ts_read st (-1) <? timestamp);
      apply select_position_reads; cbn; tauto. }
  destruct (timestamps st); [congruence | |];
    rewrite Hc, Hz; cbn [Z.eqb Pos.eqb]; exact E.
Qed.

(** C3 fails on the code. (1) One record, stamped 100, is written into
    the empty store; the index holds 100 at slot 1, and the search answers
    0 ("no record") for every target, 100 itself included, whatever the
    memory around the index holds. (2) In the wrapped store of capacity 3
    written at 100, 130, 160 and 190, slot 1 holds 190 and the search for
    190 answers 0. *)
Theorem C3_nearest_misses_written_timestamps :
  (forall (heap : Z -> Z) (target : Z),
     exists st,
       fresh_then heap [100] = Some st
       /\ ts_read st 1 = 100
       /\ get_file_id_from_timestamp st target = 0)
  /\ (capacity_then heap0 3 [100; 130; 160; 190] = Some store_3_wrapped
      /\ ts_read store_3_wrapped 1 = 190
      /\ get_file_id_from_timestamp store_3_wrapped 190 = 0).
Proof.
  split.
  - intros heap target. eexists. split; [vm_compute; reflexivity|].
    split; [vm_compute; reflexivity|].
    apply one_record_is_never_found;
      [discriminate | reflexivity | vm_compute; reflexivity].
  - split; [vm_compute; reflexivity|]. split; vm_compute; reflexivity.
Qed.

(** C10 fails on the code. Two records are written into the empty store
    of capacity 500, which has not wrapped (the cursor is at 3). For every
    target, and whatever the memory holds, the search reads [timestamps]
    at index -1. With suitable words in the memory it also returns 65534,
    which is no slot id. *)
Theorem C10_search_reads_outside_the_index :
  (forall (heap : Z -> Z) (target : Z),
     exists st,
       fresh_then heap [100; 130] = Some st
       /\ MAX_FILES st = 500 /\ current_file st = 3
       /\ In (-1) (snd (get_file_id_trace st target)))
  /\ (exists st,
       fresh_then (fun _ => 130) [100; 130] = Some st
       /\ get_file_id_trace st 130 = (65534, [3; -1; 65534])).
Proof.
  split.
  - intros heap target. eexists. split; [vm_compute; reflexivity|].
    split; [reflexivity|]. split; [reflexivity|].
    apply two_records_probe_below_the_array;
      [discriminate | reflexivity | vm_compute; reflexivity].
  - eexists. split; [vm_compute; reflexivity|]. vm_compute. reflexivity.
Qed.

(** ** C4 and C7: paging *)

(** The first iteration of the paging loop ends the call: the destination
    of the load is the null pointer, so the load either fails before it
    stores anything or stores through the null pointer. Nothing is sent. *)
Lemma fetch_loop_first_step (p : platform) (w : world) (n : nat)
    (locked_max locked_before_id : Z) (st : hk_state) :
  fetch_loop p w (S n) locked_max locked_before_id st = Ret FAILURE st
  \/ fetch_loop p w (S n) locked_max locked_before_id st = Fault st.
Proof.
  cbn [fetch_loop]. unfold load_historic_hk_data, read_hk_from_file, exists_.
  destruct (w_malloc w); cbn [negb bind]; [| left; reflexivity].
  destruct (files st !! _); cbn; [right | left]; reflexivity.
Qed.

(** No call of the paging function sends a packet. *)
Lemma fetch_sends_nothing (p : platform) (w : world)
    (limit before_id before_time : Z) (st st' : hk_state) :
  final_state (fetch_historic_hk_and_transmit p w limit before_id before_time st)
  = Some st' ->
  conn_sent st' = conn_sent st.
Proof.
  unfold fetch_historic_hk_and_transmit, prv_get_lock, prv_give_lock.
  destruct (f_count_lock st); cbn [bind final_state]; [discriminate|].
  set (id := if _ || _ then _ else _). clearbody id.
  set (st1 := set_f_count_lock false (set_f_count_lock true st)).
  assert (Hs : conn_sent st1 = conn_sent st) by reflexivity.
  assert (L : forall n, final_state (fetch_loop p w n (MAX_FILES (set_f_count_lock true st)) id st1) = Some st' ->
                        conn_sent st' = conn_sent st).
  { intros [|n].
    - cbn. intros [= <-]. exact Hs.
    - destruct (fetch_loop_first_step p w n (MAX_FILES (set_f_count_lock true st)) id st1) as [E|E];
        rewrite E; cbn; intros [= <-]; exact Hs. }
  destruct (_ <? limit); [apply L|].
  destruct (limit =? 0); [cbn; intros [= <-]; exact Hs | apply L].
Qed.

(** The part of C7 that holds: a page of limit 0 returns [SUCCESS], sends
    nothing and leaves the store as it was. *)
Lemma fetch_limit_zero (p : platform) (w : world) (before_id before_time : Z)
    (st : hk_state) :
  f_count_lock st = false -> 0 <= MAX_FILES st ->
  fetch_historic_hk_and_transmit p w 0 before_id before_time st = Ret SUCCESS st.
Proof.
  intros Hl Hm. unfold fetch_historic_hk_and_transmit, prv_get_lock, prv_give_lock.
  rewrite Hl. cbn [bind]. cbn [MAX_FILES set_f_count_lock].
  replace (MAX_FILES st <? 0) with false by (symmetry; apply Z.ltb_ge; lia).
  cbn [Z.eqb]. destruct st; cbn in *. subst. reflexivity.
Qed.

(** C4 fails on the code. In the scenario (capacity 3, writes at 100, 130,
    160, then 190 over slot 1, cursor at 2) the search for 165 does answer
    slot 3, but the page of limit 3 emits nothing: its first load, for
    slot 1, opens the file of the cursor's slot 2 and stores through a null
    pointer. *)
Theorem C4_scenario_page_emits_nothing :
  forall big_endian : bool,
    capacity_then heap0 3 [100; 130; 160; 190] = Some store_3_wrapped
    /\ current_file store_3_wrapped = 2
    /\ map (ts_read store_3_wrapped) [1; 2; 3] = [190; 130; 160]
    /\ get_file_id_from_timestamp store_3_wrapped 165 = 3
    /\ fetch_historic_hk_and_transmit (platform0 big_endian) (world_ok 0) 3 0 0
         store_3_wrapped
       = Fault store_3_wrapped
    /\ conn_sent store_3_wrapped = [].
Proof.
  intros be. split; [vm_compute; reflexivity|].
  split; [vm_compute; reflexivity|]. split; [vm_compute; reflexivity|].
  split; [vm_compute; reflexivity|]. split; [|vm_compute; reflexivity].
  destruct be; vm_compute; reflexivity.
Qed.

(** C7 fails on the code. A page of limit 0 does return [SUCCESS]
    ([fetch_limit_zero]), but a page whose limit exceeds the capacity is
    not cut to [capacity] records: with capacity 3, every slot written and
    limit 5, the call stops in its first iteration and no record is sent;
    on the empty store of capacity 3 it returns [FAILURE], again with
    nothing sent. *)
Theorem C7_clamped_page_emits_nothing :
  forall big_endian : bool,
    MAX_FILES store_3_wrapped = 3
    /\ fetch_historic_hk_and_transmit (platform0 big_endian) (world_ok 0) 5 0 0
         store_3_wrapped
       = Fault store_3_wrapped
    /\ conn_sent store_3_wrapped = []
    /\ exists st,
         capacity_then heap0 3 [] = Some st
         /\ fetch_historic_hk_and_transmit (platform0 big_endian) (world_ok 0) 5 0 0 st
            = Ret FAILURE st
         /\ conn_sent st = [].
Proof.
  intros be. split; [vm_compute; reflexivity|].
  split; [destruct be; vm_compute; reflexivity|].
  split; [vm_compute; reflexivity|].
  eexists. split; [vm_compute; reflexivity|].
  split; [destruct be; vm_compute; reflexivity | reflexivity].
Qed.

(** ** C5 and C9: a write that fails *)



(** [write_hk_to_file] reports a failure only when [fopen] fails. *)
Lemma write_hk_to_file_failure (w : world) (filename : string)
    (d : All_systems_housekeeping) (st st' : hk_state) :
  write_hk_to_file w filename d st = Ret FAILURE st' <-> w_fopen_wb w = false /\ st' = st.
Proof.
  unfold write_hk_to_file. destruct (w_fopen_wb w); cbn [negb]; split.
  - discriminate.
  - intros [H _]. discriminate.
  - intros [= <-]. tauto.
  - intros [_ ->]. reflexivity.
Qed.

(** C5 fails on the code. The file of the write is opened but none of the
    five [fwrite] calls stores its item: the record is not persisted (the
    file is empty), yet the write returns [SUCCESS], the index entry of
    slot 1 is set and the cursor moves on to slot 2. *)
Theorem C5_unreported_persistence_failure :
  forall heap : Z -> Z,
  exists st',
    populate_and_store_hk_data (world_fwrite_fails 100) (initial_state heap ∅)
    = Ret SUCCESS st'
    /\ files st' !! hk_filename 1 = Some []
    /\ current_file (initial_state heap ∅) = 1 /\ current_file st' = 2
    /\ ts_read st' 1 = 100.
Proof.
  intros heap. eexists. split; [vm_compute; reflexivity|].
  split; [vm_compute; reflexivity|]. split; [reflexivity|].
  split; [reflexivity | vm_compute; reflexivity].
Qed.

(** C9 fails on the code. A write whose [fopen] fails, and a write whose
    [malloc] fails, return [FAILURE] with the mutex still taken; the next
    write then waits for the mutex for ever. *)
Theorem C9_failed_write_keeps_the_mutex :
  forall heap : Z -> Z,
    (exists st',
       populate_and_store_hk_data (world_fopen_fails 100) (initial_state heap ∅)
       = Ret FAILURE st'
       /\ f_count_lock st' = true
       /\ populate_and_store_hk_data (world_ok 130) st' = Blocked)
    /\ (exists st',
       populate_and_store_hk_data (world_malloc_fails 100) (initial_state heap ∅)
       = Ret FAILURE st'
       /\ f_count_lock st' = true
       /\ populate_and_store_hk_data (world_ok 130) st' = Blocked).
Proof.
  intros heap. split; eexists; (split; [vm_compute; reflexivity|]);
    (split; [reflexivity|]); vm_compute; reflexivity.
Qed.

(** A write that returns [SUCCESS] gives the mutex back. *)
Lemma write_success_gives_the_mutex (w : world) (st st' : hk_state) :
  populate_and_store_hk_data w st = Ret SUCCESS st' -> f_count_lock st' = false.
Proof.
  unfold populate_and_store_hk_data, prv_get_lock, prv_give_lock, write_hk_to_file.
  destruct (f_count_lock st); cbn [bind]; [discriminate|].
  destruct (w_malloc w); cbn [negb]; [|discriminate].
  destruct (w_fopen_wb w); cbn [negb bind Result_nonzero]; [|discriminate].
  destruct (dynamic_timestamp_array_handler _ _ _); cbn [bind]; try discriminate.
  intros [= <-]. reflexivity.
Qed.

(** ** C6: the arguments of GET-HISTORY *)

Lemma data8_range (data : list Z) (i : Z) : 0 <= data8 data i < 256.
Proof. unfold data8. apply Z.mod_pos_bound. lia. Qed.

Lemma data16_range (p : platform) (data : list Z) (k : Z) :
  0 <= data16 p data k < 65536.
Proof.
  unfold data16.
  pose proof (data8_range data (2 * k)). pose proof (data8_range data (2 * k + 1)).
  destruct (host_big_endian p); lia.
Qed.

(** Whatever the request, the [before_time] the dispatcher passes on has
    16 bits. *)
Lemma get_hk_before_time_16_bits (p : platform) (data : list Z) :
  0 <= snd (get_hk_arguments p data) < 65536.
Proof.
  unfold get_hk_arguments. cbn [snd].
  pose proof (data16_range p data (IN_DATA_BYTE p + 2)).
  rewrite u32_small; lia.
Qed.

(** C6 fails on the code. The request for limit 3, beforeSlotId 2 and
    beforeTimestamp 100000, laid out as the specification says, is decoded
    as (768, 512, 390) on a big-endian host and as (3, 2, 34305) on a
    little-endian host: the fields are read as host-order 16-bit words at
    word positions, and the time stamp from two bytes only. *)
Theorem C6_get_history_decoding :
  get_hk_arguments (platform0 true) (spec_get_history_request 2 3 2 100000)
  = (768, 512, 390)
  /\ get_hk_arguments (platform0 false) (spec_get_history_request 2 3 2 100000)
     = (3, 2, 34305)
  /\ forall (p : platform) (data : list Z),
       snd (get_hk_arguments p data) <> 100000.
Proof.
  split; [vm_compute; reflexivity|]. split; [vm_compute; reflexivity|].
  intros p data. pose proof (get_hk_before_time_16_bits p data). lia.
Qed.

(** ** C8: the index across a resize *)


(** [set_max_files] leaves the index as it finds it. *)
Lemma set_max_files_keeps_index (w : world) (st : hk_state) (new_max : Z) :
  1 <= new_max < 65536 -> 0 <= MAX_FILES st < 65535 -> f_count_lock st = false ->
  exists r st',
    set_max_files w new_max st = Ret r st'
    /\ timestamps st' = timestamps st
    /\ timestamps_at st' = timestamps_at st
    /\ hk_timestamp_array_size st' = hk_timestamp_array_size st.
Proof.
  intros Hn Ho Hl.
  destruct (set_max_files_store w st new_max Hn Ho Hl)
    as (r & st' & E & _ & _ & _ & H1 & H2 & H3 & _).
  exists r, st'. auto.
Qed.

(** Every [realloc] of the index asks for the size of one element. *)
Lemma handler_block_size (w : world) (num_items : Z) (st st' : hk_state) (r : Result) :
  num_items <> 0 -> num_items <> hk_timestamp_array_size st ->
  dynamic_timestamp_array_handler w num_items st = Ret r st' ->
  r = SUCCESS -> timestamps st' = ts_block 4.
Proof.
  intros Hz Hs. unfold dynamic_timestamp_array_handler.
  replace (num_items =? 0) with false by (symmetry; apply Z.eqb_neq; lia).
  replace (num_items =? hk_timestamp_array_size st) with false
    by (symmetry; apply Z.eqb_neq; lia).
  cbn [negb].
  assert (G : forall (l : list Z) (s : hk_state),
             timestamps (fold_left (fun s j => ts_write j 0 s) l s) = timestamps s).
  { induction l as [|j l IH]; intros s; cbn [fold_left]; [reflexivity|].
    rewrite IH. reflexivity. }
  destruct (timestamps st); try discriminate;
    (destruct (w_realloc w); [| intros [= <- <-]; discriminate]);
    unfold for_u16; destruct (num_items =? 65535); try discriminate;
    intros [= <- <-] _; rewrite G; reflexivity.
Qed.

(** C8 fails on the code. Capacity 3 with its three slots written is
    resized to 5: the call returns [SUCCESS] with the capacity at 5, and
    the index is as before, 3 entries in a block of 4 bytes. The write
    that follows brings the recorded size to 5, in a block that is still
    4 bytes, not the 24 bytes of 5 + 1 entries. *)
Theorem C8_resize_leaves_the_index :
  capacity_then heap0 3 [100; 130; 160] = Some store_3_full
  /\ hk_timestamp_array_size store_3_full = 3
  /\ exists st' st'',
       set_max_files (world_ok 0) 5 store_3_full = Ret SUCCESS st'
       /\ MAX_FILES st' = 5
       /\ hk_timestamp_array_size st' = 3
       /\ timestamps st' = ts_block 4
       /\ write_at 190 st' = Some st''
       /\ hk_timestamp_array_size st'' = 5
       /\ timestamps st'' = ts_block 4.
Proof.
  split; [vm_compute; reflexivity|]. split; [vm_compute; reflexivity|].
  eexists _, _. split; [vm_compute; reflexivity|].
  split; [reflexivity|]. split; [reflexivity|]. split; [reflexivity|].
  split; [vm_compute; reflexivity|]. split; reflexivity.
Qed.

(** * Further properties of the service *)

Ltac by_running :=
  vm_compute; repeat split;
  first [reflexivity | discriminate | (let H := fresh in intros H; discriminate H)].

(** ** The index array *)



Lemma zero_fill_globals (l : list Z) (st : hk_state) :
  let st' := fold_left (fun s i => ts_write i 0 s) l st in
  same_but_index st st' /\ timestamps st' = timestamps st
  /\ hk_timestamp_array_size st' = hk_timestamp_array_size st.
Proof.
  revert st. induction l as [|i l IH]; intros st; cbn [fold_left].
  - unfold same_but_index. tauto.
  - specialize (IH (ts_write i 0 st)). cbv zeta in *.
    unfold same_but_index in *. cbn in IH. tauto.
Qed.




(** ** The write path *)









Lemma handler_keeps_store (w : world) (n : Z) (st st' : hk_state) (r : Result) :
  dynamic_timestamp_array_handler w n st = Ret r st' -> same_but_index st st'.
Proof.
  unfold dynamic_timestamp_array_handler.
  assert (S0 : same_but_index st st) by (unfold same_but_index; tauto).
  destruct (n =? 0).
  { destruct (timestamps st); intros [= <- <-] || discriminate;
      unfold same_but_index; cbn; tauto. }
  destruct (n =? hk_timestamp_array_size st); cbn [negb];
    [intros [= <- <-]; exact S0 |].
  assert (G : forall o, match o with Some st3 => Ret SUCCESS st3 | None => Hang end = Ret r st' ->
                        (forall st3, o = Some st3 -> same_but_index st st3) ->
                        same_but_index st st').
  { intros [st3|] E H; [injection E as <- <-; apply H; reflexivity | discriminate]. }
  destruct (timestamps st); try discriminate;
    (destruct (w_realloc w); [| intros [= <- <-]; exact S0]);
    intros E; apply (G _ E); unfold for_u16; intros st3;
    (destruct (n =? 65535); [discriminate|]); intros [= <-];
    match goal with
    | |- context [fold_left ?f ?l ?a] =>
        destruct (zero_fill_globals l a) as (G1 & _)
    end; exact G1.
Qed.

(** X5. A write that returns [FAILURE] has changed nothing in the store:
    the capacity, the cursor, every index entry and the recorded size, the
    files and the packets sent are as before. The one thing that differs
    is the mutex, which is left taken. *)
Theorem failed_write_changes_nothing (w : world) (st st' : hk_state) :
  populate_and_store_hk_data w st = Ret FAILURE st' ->
  MAX_FILES st' = MAX_FILES st /\ current_file st' = current_file st
  /\ (forall j, ts_read st' j = ts_read st j)
  /\ hk_timestamp_array_size st' = hk_timestamp_array_size st
  /\ timestamps st' = timestamps st
  /\ files st' = files st /\ conn_sent st' = conn_sent st
  /\ f_count_lock st' = true.
Proof.
  unfold populate_and_store_hk_data, prv_get_lock, prv_give_lock, write_hk_to_file.
  destruct (f_count_lock st); cbn [bind]; [discriminate|].
  destruct (w_malloc w); cbn [negb].
  2:{ intros [= <-]. cbn. tauto. }
  destruct (w_fopen_wb w); cbn [negb bind Result_nonzero].
  2:{ intros [= <-]. cbn. tauto. }
  destruct (dynamic_timestamp_array_handler _ _ _); cbn [bind]; discriminate.
Qed.

Lemma failed_write_changes_nothing_witness :
  populate_and_store_hk_data (world_fopen_fails 190) store_3_full
  = Ret FAILURE (set_f_count_lock true store_3_full)
  /\ (MAX_FILES (set_f_count_lock true store_3_full) = MAX_FILES store_3_full
      /\ current_file (set_f_count_lock true store_3_full) = current_file store_3_full
      /\ (forall j, ts_read (set_f_count_lock true store_3_full) j = ts_read store_3_full j)
      /\ hk_timestamp_array_size (set_f_count_lock true store_3_full)
         = hk_timestamp_array_size store_3_full
      /\ timestamps (set_f_count_lock true store_3_full) = timestamps store_3_full
      /\ files (set_f_count_lock true store_3_full) = files store_3_full
      /\ conn_sent (set_f_count_lock true store_3_full) = conn_sent store_3_full
      /\ f_count_lock (set_f_count_lock true store_3_full) = true).
Proof.
  assert (H : populate_and_store_hk_data (world_fopen_fails 190) store_3_full
              = Ret FAILURE (set_f_count_lock true store_3_full))
    by (vm_compute; reflexivity).
  split; [exact H|].
  exact (failed_write_changes_nothing (world_fopen_fails 190) store_3_full _ H).
Defined.

(** What every write that returns leaves of the capacity and the cursor. *)
Lemma write_cursor (w : world) (st st' : hk_state) (r : Result) :
  cursor_ok st ->
  populate_and_store_hk_data w st = Ret r st' ->
  MAX_FILES st' = MAX_FILES st
  /\ (current_file st' = current_file st \/ current_file st' = next_slot st).
Proof.
  intros [Hm Hc].
  unfold populate_and_store_hk_data, prv_get_lock, prv_give_lock, write_hk_to_file.
  destruct (f_count_lock st); cbn [bind]; [discriminate|].
  destruct (w_malloc w); cbn [negb]; [| intros [= <- <-]; cbn; tauto].
  destruct (w_fopen_wb w); cbn [negb bind Result_nonzero];
    [| intros [= <- <-]; cbn; tauto].
  destruct (dynamic_timestamp_array_handler _ _ _) as [r3 st3| | |] eqn:E;
    cbn [bind]; try discriminate.
  apply handler_keeps_store in E. destruct E as (G1 & G2 & _). cbn in G1, G2.
  destruct (Result_nonzero r3);
    cbn [MAX_FILES current_file set_current_file ts_write set_timestamps_at];
    rewrite G1, G2, u16_small by lia;
    intros [= <- <-]; unfold next_slot;
    destruct (Z.ltb_spec (MAX_FILES st) (current_file st + 1));
    destruct (Z.eqb_spec (current_file st) (MAX_FILES st));
    cbn [MAX_FILES current_file set_current_file set_f_count_lock
         ts_write set_timestamps_at];
    rewrite ?G1; (split; [reflexivity | right; lia]).
Qed.

Lemma next_slot_range (st : hk_state) :
  cursor_ok st -> 1 <= next_slot st <= MAX_FILES st.
Proof.
  intros [Hm Hc]. unfold next_slot.
  destruct (Z.eqb_spec (current_file st) (MAX_FILES st)); lia.
Qed.

(** X6. The cursor stays on a slot. When the capacity is in [1, 65534]
    and the cursor in [1, capacity], they still are after every write that
    returns, whatever it returns and whatever the library calls answered,
    and after every resize to a capacity in [1, 65534] that returns. *)
Theorem cursor_stays_in_range (st : hk_state) :
  cursor_ok st ->
  (forall w r st', populate_and_store_hk_data w st = Ret r st' -> cursor_ok st')
  /\ (forall w new_max r st',
        1 <= new_max < 65535 ->
        set_max_files w new_max st = Ret r st' -> cursor_ok st').
Proof.
  intros Hc. split.
  - intros w r st' E. destruct (write_cursor w st st' r Hc E) as [M C].
    pose proof (next_slot_range st Hc) as N. destruct Hc as [Hm Hcf].
    unfold cursor_ok. rewrite M. destruct C as [-> | ->]; lia.
  - intros w new_max r st' Hn. unfold set_max_files, prv_get_lock, prv_give_lock.
    replace (new_max <? 1) with false by (symmetry; apply Z.ltb_ge; lia).
    destruct (f_count_lock st); cbn [bind]; [discriminate|].
    cbn [MAX_FILES set_f_count_lock set_current_file set_MAX_FILES].
    destruct (_ <? new_max); [intros [= <- <-]; unfold cursor_ok; cbn; lia|].
    destruct (w_malloc w); cbn [negb]; [| intros [= <- <-]; unfold cursor_ok; cbn; lia].
    unfold for_u16. destruct (_ =? 65535); [discriminate|].
    match goal with
    | |- context [fold_left ?f ?l ?a] =>
        pose proof (cleanup_fold_globals w (filename_length (MAX_FILES st)) new_max l a) as G;
        destruct (fold_left f l a) as [result st'']
    end.
    intros [= <- <-]. unfold same_globals in G. cbn in G.
    destruct G as (G1 & G2 & _). unfold cursor_ok. rewrite G1, G2. lia.
Qed.

Lemma cursor_stays_in_range_witness :
  cursor_ok store_3_full
  /\ (forall w r st', populate_and_store_hk_data w store_3_full = Ret r st' -> cursor_ok st')
  /\ (forall w new_max r st',
        1 <= new_max < 65535 ->
        set_max_files w new_max store_3_full = Ret r st' -> cursor_ok st').
Proof.
  assert (H : cursor_ok store_3_full) by by_running.
  split; [exact H|]. exact (cursor_stays_in_range store_3_full H).
Defined.





(** X9. Capacity 65535 is accepted and then stalls the service. From a
    store with a smaller capacity, the resize to 65535 returns [SUCCESS];
    the next write, whose library calls succeed, then never returns: the
    loop that zero-fills the new index entries counts with a [uint16_t]
    up to 65535 and its condition cannot become false. A further resize,
    to any capacity, never returns either, for the same reason in its
    clean-up loop. *)
Theorem capacity_65535_stalls (w1 w2 : world) (st : hk_state) :
  f_count_lock st = false -> 0 <= MAX_FILES st < 65535 -> index_ok st ->
  write_calls_succeed w2 ->
  exists st1,
    set_max_files w1 65535 st = Ret SUCCESS st1
    /\ populate_and_store_hk_data w2 st1 = Hang
    /\ (forall new_max, 1 <= new_max < 65536 -> set_max_files w2 new_max st1 = Hang)
    /\ (forall (fuel : nat) (i : Z) (s : hk_state), 0 <= i < 65536 ->
          for_u16_steps fuel i 65535 (fun j s => ts_write j 0 s) s = None).
Proof.
  intros Hl Ho [Hp Hs] (Hma & Hre & Hfo).
  eexists. split.
  { unfold set_max_files, prv_get_lock, prv_give_lock. rewrite Hl. cbn [bind Z.ltb Z.compare Pos.compare Pos.compare_cont].
    change (65535 <? 1) with false. cbv iota.
    cbn [MAX_FILES set_f_count_lock set_current_file set_MAX_FILES].
    replace (MAX_FILES st <? 65535) with true by (symmetry; apply Z.ltb_lt; lia).
    reflexivity. }
  split.
  { unfold populate_and_store_hk_data, prv_get_lock, write_hk_to_file.
    cbn [f_count_lock set_f_count_lock set_current_file set_MAX_FILES bind].
    rewrite Hma, Hfo. cbn [negb bind Result_nonzero].
    unfold dynamic_timestamp_array_handler.
    cbn [MAX_FILES hk_timestamp_array_size timestamps set_files set_f_count_lock
         set_current_file set_MAX_FILES].
    change (65535 =? 0) with false. cbv iota.
    replace (65535 =? hk_timestamp_array_size st) with false
      by (symmetry; apply Z.eqb_neq; lia).
    cbn [negb]. rewrite Hre. unfold for_u16. change (65535 =? 65535) with true.
    destruct (timestamps st); [reflexivity | reflexivity | congruence]. }
  split.
  { intros new_max Hn. unfold set_max_files, prv_get_lock, prv_give_lock.
    replace (new_max <? 1) with false by (symmetry; apply Z.ltb_ge; lia).
    cbn [f_count_lock set_f_count_lock set_current_file set_MAX_FILES bind MAX_FILES].
    replace (65535 <? new_max) with false by (symmetry; apply Z.ltb_ge; lia).
    rewrite Hma. cbn [negb]. unfold for_u16. change (65535 =? 65535) with true.
    reflexivity. }
  intros fuel i s Hi. apply for_u16_steps_hang. exact Hi.
Qed.

Lemma capacity_65535_stalls_witness :
  (f_count_lock store_3_full = false /\ 0 <= MAX_FILES store_3_full < 65535
   /\ index_ok store_3_full /\ write_calls_succeed (world_ok 190))
  /\ exists st1,
    set_max_files (world_ok 0) 65535 store_3_full = Ret SUCCESS st1
    /\ populate_and_store_hk_data (world_ok 190) st1 = Hang
    /\ (forall new_max, 1 <= new_max < 65536 ->
          set_max_files (world_ok 190) new_max st1 = Hang)
    /\ (forall (fuel : nat) (i : Z) (s : hk_state), 0 <= i < 65536 ->
          for_u16_steps fuel i 65535 (fun j s => ts_write j 0 s) s = None).
Proof.
  assert (H1 : f_count_lock store_3_full = false) by by_running.
  assert (H2 : 0 <= MAX_FILES store_3_full < 65535) by by_running.
  assert (H3 : index_ok store_3_full) by by_running.
  assert (H4 : write_calls_succeed (world_ok 190)) by by_running.
  split; [exact (conj H1 (conj H2 (conj H3 H4)))|].
  exact (capacity_65535_stalls (world_ok 0) (world_ok 190) store_3_full H1 H2 H3 H4).
Defined.



(** ** File names *)

(** X11. The buffer of the file name is large enough and the names tell
    the slots apart: for every slot id in [1, 65535] the name is
    ["tempHKdata"], the decimal digits of the id and [".TMP"], nothing cut
    off, and two different ids have different names. For slot id 0 the
    buffer is one character short and the name loses its last character. *)
Theorem file_names_are_exact_and_distinct (i j : Z) :
  1 <= i < 65536 -> 1 <= j < 65536 ->
  hk_filename i = base_file +:+ pretty (Z.to_N i) +:+ extension
  /\ (hk_filename i = hk_filename j -> i = j)
  /\ hk_filename 0 = "tempHKdata0.TM"%string.
Proof.
  intros Hi Hj. split; [apply hk_filename_full; exact Hi|].
  split; [| reflexivity].
  intros E. rewrite !hk_filename_full in E by assumption.
  apply full_name_inj in E; lia.
Qed.

Lemma file_names_are_exact_and_distinct_witness :
  (1 <= 134 < 65536 /\ 1 <= 1340 < 65536)
  /\ hk_filename 134 = base_file +:+ pretty (Z.to_N 134) +:+ extension
  /\ (hk_filename 134 = hk_filename 1340 -> 134 = 1340)
  /\ hk_filename 0 = "tempHKdata0.TM"%string.
Proof.
  assert (H1 : 1 <= 134 < 65536) by lia.
  assert (H2 : 1 <= 1340 < 65536) by lia.
  split; [exact (conj H1 H2)|].
  exact (file_names_are_exact_and_distinct 134 1340 H1 H2).
Defined.

Lemma num_digits_loop_opp (fuel : nat) (num count : Z) :
  num_digits_loop fuel (- num) count = num_digits_loop fuel num count.
Proof.
  revert num count. induction fuel as [|fuel IH]; intros num count; [reflexivity|].
  cbn [num_digits_loop].
  destruct (Z.eqb_spec num 0) as [->|Hn]; [reflexivity|].
  replace (- num =? 0) with false by (symmetry; apply Z.eqb_neq; lia).
  rewrite Z.quot_opp_l by lia. apply IH.
Qed.

Lemma ndigits_power (fuel : nat) (x : Z) :
  0 < x < 10 ^ Z.of_nat fuel ->
  1 <= Z.of_nat (ndigits fuel (Z.to_N x))
  /\ 10 ^ (Z.of_nat (ndigits fuel (Z.to_N x)) - 1) <= x
     < 10 ^ Z.of_nat (ndigits fuel (Z.to_N x)).
Proof.
  revert x. induction fuel as [|fuel IH]; intros x Hx.
  - change (10 ^ Z.of_nat 0) with 1 in Hx. lia.
  - cbn [ndigits].
    replace (Z.to_N x =? 0)%N with false by (symmetry; apply N.eqb_neq; lia).
    replace (Z.to_N x / 10)%N with (Z.to_N (x / 10))
      by (rewrite Z2N.inj_div by lia; reflexivity).
    rewrite Nat2Z.inj_succ, Z.pow_succ_r in Hx by lia.
    rewrite Nat2Z.inj_succ.
    destruct (Z.eq_dec (x / 10) 0) as [Hz|Hnz].
    + rewrite Hz. assert (Hd : ndigits fuel (Z.to_N 0) = O)
        by (destruct fuel; reflexivity).
      rewrite Hd. change (Z.succ (Z.of_nat 0)) with 1.
      change (10 ^ (1 - 1)) with 1. change (10 ^ 1) with 10.
      apply Z.div_small_iff in Hz; lia.
    + assert (Hq : 0 < x / 10 < 10 ^ Z.of_nat fuel).
      { split; [pose proof (Z.div_pos x 10); lia|].
        apply Z.div_lt_upper_bound; lia. }
      destruct (IH (x / 10) Hq) as (D1 & D2 & D3).
      set (d := Z.of_nat (ndigits fuel (Z.to_N (x / 10)))) in *.
      split; [lia|].
      replace (Z.succ d - 1) with (Z.succ (d - 1)) by lia.
      rewrite !Z.pow_succ_r by lia.
      pose proof (Z.div_mod x 10 ltac:(lia)) as Hdm.
      pose proof (Z.mod_pos_bound x 10 ltac:(lia)) as Hmb.
      lia.
Qed.

(** X12. [num_digits] counts the decimal digits of its argument, sign
    aside: it is 0 for 0 and, for every other [int] [n], the [d] with
    [10^(d-1) <= |n| < 10^d]. *)
Theorem num_digits_counts_decimal_digits (n : Z) :
  - 2147483648 <= n < 2147483648 -> n <> 0 ->
  num_digits 0 = 0
  /\ 1 <= num_digits n <= 10
  /\ 10 ^ (num_digits n - 1) <= Z.abs n < 10 ^ num_digits n.
Proof.
  intros Hr Hn. split; [reflexivity|].
  assert (E : num_digits n = num_digits (Z.abs n)).
  { unfold num_digits. destruct (Z.abs_spec n) as [[_ ->]|[_ ->]];
      [reflexivity | symmetry; apply num_digits_loop_opp]. }
  rewrite E. assert (Ha : 0 < Z.abs n < 10 ^ Z.of_nat 11).
  { change (10 ^ Z.of_nat 11) with 100000000000. lia. }
  rewrite num_digits_ndigits by lia.
  destruct (ndigits_power 11 (Z.abs n) Ha) as (D1 & D2 & D3).
  set (d := Z.of_nat (ndigits 11 (Z.to_N (Z.abs n)))) in *.
  split; [| lia]. split; [lia|].
  destruct (Z.le_gt_cases d 10) as [Hle|Hgt]; [exact Hle|].
  assert (10 ^ 10 <= 10 ^ (d - 1)) by (apply Z.pow_le_mono_r; lia).
  change (10 ^ 10) with 10000000000 in *. lia.
Qed.

Lemma num_digits_counts_decimal_digits_witness :
  (- 2147483648 <= -500 < 2147483648 /\ -500 <> 0)
  /\ num_digits 0 = 0
  /\ 1 <= num_digits (-500) <= 10
  /\ 10 ^ (num_digits (-500) - 1) <= Z.abs (-500) < 10 ^ num_digits (-500).
Proof.
  assert (H1 : - 2147483648 <= -500 < 2147483648) by lia.
  assert (H2 : -500 <> 0) by lia.
  split; [exact (conj H1 H2)|].
  exact (num_digits_counts_decimal_digits (-500) H1 H2).
Defined.

(** ** The search in a wrapped store *)

(** The loop stays inside the window it is given, and probes only
    positions of that window (shifted by the cursor). *)
Lemma search_loop_window (fuel : nat) (st : hk_state) (timestamp left right : Z)
    (reads : list Z) :
  0 <= left <= right -> right < 65536 ->
  left <= fst (search_loop fuel st timestamp left right reads) <= right
  /\ forall i, In i (snd (search_loop fuel st timestamp left right reads)) ->
       In i reads
       \/ left - (current_file st - 1) <= i <= right - 1 - (current_file st - 1).
Proof.
  revert left right reads.
  induction fuel as [|fuel IH]; intros left right reads Hl Hr; cbn [search_loop].
  - cbn [fst snd]. split; [lia | tauto].
  - destruct (Z.ltb_spec left right) as [Hlt|Hge]; [| cbn [fst snd]; split; [lia | tauto]].
    cbv zeta.
    assert (Hm : left <= (left + right) / 2 < right).
    { split; [apply Z.div_le_lower_bound | apply Z.div_lt_upper_bound]; lia. }
    rewrite (u16_small ((left + right) / 2)) by lia.
    rewrite (u16_small ((left + right) / 2 + 1)) by lia.
    set (m := (left + right) / 2) in *.
    destruct (_ <? timestamp).
    + destruct (IH (m + 1) right (reads ++ [m - (current_file st - 1)])
                  ltac:(lia) Hr) as [B R].
      split; [lia|]. intros i Hi. destruct (R i Hi) as [Hin|Hin]; [|lia].
      apply in_app_iff in Hin. cbn [In] in Hin. intuition lia.
    + destruct (IH left m (reads ++ [m - (current_file st - 1)])
                  ltac:(lia) ltac:(lia)) as [B R].
      split; [lia|]. intros i Hi. destruct (R i Hi) as [Hin|Hin]; [|lia].
      apply in_app_iff in Hin. cbn [In] in Hin. intuition lia.
Qed.

(** X13. In a wrapped store (the index entry at the cursor is not 0) the
    search stays inside the index and never answers with a record that is
    far from the target: it reads [timestamps] only at the cursor and at
    positions in [1, size], and its result is 0 or a slot id in [1, size]
    whose index entry is within the 15 seconds of the target (as the
    unsigned 32-bit difference one way or the other). *)
Theorem wrapped_search_is_sound (st : hk_state) (target : Z) :
  timestamps st <> ts_NULL ->
  ts_read st (current_file st) <> 0 ->
  1 <= current_file st -> 1 <= hk_timestamp_array_size st ->
  current_file st + hk_timestamp_array_size st - 1 < 65536 ->
  (forall i, In i (snd (get_file_id_trace st target)) ->
     i = current_file st \/ 1 <= i <= hk_timestamp_array_size st)
  /\ (get_file_id_from_timestamp st target = 0
      \/ (1 <= get_file_id_from_timestamp st target <= hk_timestamp_array_size st
          /\ (u32 (u32 target - ts_read st (get_file_id_from_timestamp st target)) <= 15
              \/ u32 (ts_read st (get_file_id_from_timestamp st target) - u32 target) <= 15))).
Proof.
  intros Hp Hw Hc Hs Hb. unfold get_file_id_from_timestamp, get_file_id_trace.
  cbv zeta. set (t := u32 target).
  set (cf := current_file st) in *. set (sz := hk_timestamp_array_size st) in *.
  replace (ts_read st cf =? 0) with false by (symmetry; apply Z.eqb_neq; exact Hw).
  rewrite (u16_small (cf + sz - 1)) by lia.
  assert (G : forall res : Z * list Z,
    (cf <= fst res <= cf + sz - 1) ->
    (forall i, In i (snd res) -> In i [cf] \/ cf - (cf - 1) <= i <= cf + sz - 1 - 1 - (cf - 1)) ->
    (forall i, In i (snd (let '(left', reads') := res in select_position st t left' reads')) ->
       i = cf \/ 1 <= i <= sz)
    /\ (fst (let '(left', reads') := res in select_position st t left' reads') = 0
        \/ (1 <= fst (let '(left', reads') := res in select_position st t left' reads') <= sz
            /\ (u32 (t - ts_read st (fst (let '(left', reads') := res in select_position st t left' reads'))) <= 15
                \/ u32 (ts_read st (fst (let '(left', reads') := res in select_position st t left' reads')) - t) <= 15)))).
  { intros [L reads'] B R. cbn [fst snd] in B, R.
    assert (R' : forall i, In i reads' -> i = cf \/ 1 <= i <= sz).
    { intros i Hi. destruct (R i Hi) as [[<-|[]]|Hr]; [left; reflexivity | right; lia]. }
    unfold select_position. fold cf. fold sz.
    rewrite (u16_small (L - (cf - 1))) by lia.
    set (tp := L - (cf - 1)) in *.
    unfold threshold.
    destruct (Z.ltb_spec 1 tp) as [H1|H1].
    - destruct (Z.leb_spec (u32 (t - ts_read st (tp - 1))) 15) as [H2|H2].
      { cbn [fst snd]. rewrite (u16_small (tp - 1)) by lia. split.
        - intros i Hi. apply in_app_iff in Hi. cbn [In] in Hi.
          destruct Hi as [Hi|[<-|[]]]; [apply R'; exact Hi | right; lia].
        - right. split; [lia | left; exact H2]. }
      assert (Rd : forall i, In i ((reads' ++ [tp - 1]) ++ [tp]) -> i = cf \/ 1 <= i <= sz).
      { intros i Hi. rewrite !in_app_iff in Hi. cbn [In] in Hi.
        destruct Hi as [[Hi|[<-|[]]]|[<-|[]]]; [apply R'; exact Hi | right; lia | right; lia]. }
      destruct (Z.eqb_spec tp sz) as [H3|H3]; cbn [negb].
      + destruct (Z.ltb_spec (ts_read st tp) t) as [H4|H4]; cbn [andb].
        * destruct (Z.leb_spec (u32 (t - ts_read st tp)) 15) as [H5|H5].
          { cbn [fst snd]. split; [exact Rd | right; split; [lia | left; exact H5]]. }
          destruct (Z.leb_spec (u32 (ts_read st tp - t)) 15) as [H6|H6]; cbn [fst snd];
            (split; [exact Rd|]); [right; split; [lia | right; exact H6] | left; reflexivity].
        * destruct (Z.leb_spec (u32 (ts_read st tp - t)) 15) as [H6|H6]; cbn [fst snd];
            (split; [exact Rd|]); [right; split; [lia | right; exact H6] | left; reflexivity].
      + destruct (Z.leb_spec (u32 (ts_read st tp - t)) 15) as [H6|H6]; cbn [fst snd];
          (split; [exact Rd|]); [right; split; [lia | right; exact H6] | left; reflexivity].
    - assert (Rd : forall i, In i (reads' ++ [tp]) -> i = cf \/ 1 <= i <= sz).
      { intros i Hi. rewrite in_app_iff in Hi. cbn [In] in Hi.
        destruct Hi as [Hi|[<-|[]]]; [apply R'; exact Hi | right; lia]. }
      destruct (Z.leb_spec (u32 (ts_read st tp - t)) 15) as [H6|H6]; cbn [fst snd];
        (split; [exact Rd|]); [right; split; [lia | right; exact H6] | left; reflexivity]. }
  pose proof (search_loop_window (Z.to_nat (cf + sz - 1 - cf)) st t cf (cf + sz - 1) [cf]
                ltac:(lia) ltac:(lia)) as [B R].
  fold cf in R.
  destruct (timestamps st); [congruence | |]; exact (G _ B R).
Qed.

Lemma wrapped_search_is_sound_witness :
  (timestamps store_3_wrapped <> ts_NULL
   /\ ts_read store_3_wrapped (current_file store_3_wrapped) <> 0
   /\ 1 <= current_file store_3_wrapped
   /\ 1 <= hk_timestamp_array_size store_3_wrapped
   /\ current_file store_3_wrapped + hk_timestamp_array_size store_3_wrapped - 1 < 65536)
  /\ (forall i, In i (snd (get_file_id_trace store_3_wrapped 165)) ->
        i = current_file store_3_wrapped
        \/ 1 <= i <= hk_timestamp_array_size store_3_wrapped)
  /\ (get_file_id_from_timestamp store_3_wrapped 165 = 0
      \/ (1 <= get_file_id_from_timestamp store_3_wrapped 165
          <= hk_timestamp_array_size store_3_wrapped
          /\ (u32 (u32 165 - ts_read store_3_wrapped
                      (get_file_id_from_timestamp store_3_wrapped 165)) <= 15
              \/ u32 (ts_read store_3_wrapped
                        (get_file_id_from_timestamp store_3_wrapped 165) - u32 165) <= 15))).
Proof.
  assert (H1 : timestamps store_3_wrapped <> ts_NULL) by by_running.
  assert (H2 : ts_read store_3_wrapped (current_file store_3_wrapped) <> 0) by by_running.
  assert (H3 : 1 <= current_file store_3_wrapped) by by_running.
  assert (H4 : 1 <= hk_timestamp_array_size store_3_wrapped) by by_running.
  assert (H5 : current_file store_3_wrapped
               + hk_timestamp_array_size store_3_wrapped - 1 < 65536) by by_running.
  split; [exact (conj H1 (conj H2 (conj H3 (conj H4 H5))))|].
  exact (wrapped_search_is_sound store_3_wrapped 165 H1 H2 H3 H4 H5).
Defined.

Lemma u32_sub (x y : Z) :
  0 <= x < 4294967296 -> 0 <= y < 4294967296 ->
  u32 (x - y) = if y <=? x then x - y else x - y + 4294967296.
Proof.
  intros Hx Hy. unfold u32. destruct (Z.leb_spec y x).
  - apply Z.mod_small. lia.
  - rewrite <- (Z.mod_add (x - y) 1 4294967296) by lia.
    apply Z.mod_small. lia.
Qed.

(** With the cursor at slot 1 and a sorted index the loop is a leftmost
    binary search. *)
Lemma search_loop_leftmost (fuel : nat) (st : hk_state) (t left right : Z)
    (reads : list Z) :
  current_file st = 1 ->
  (forall i j, 1 <= i <= j -> j <= hk_timestamp_array_size st ->
     ts_read st i <= ts_read st j) ->
  1 <= left <= right -> right <= hk_timestamp_array_size st ->
  hk_timestamp_array_size st < 65536 ->
  (Z.to_nat (right - left) <= fuel)%nat ->
  (forall i, 1 <= i < left -> ts_read st i < t) ->
  (right < hk_timestamp_array_size st -> t <= ts_read st right) ->
  left <= fst (search_loop fuel st t left right reads) <= right
  /\ (forall i, 1 <= i < fst (search_loop fuel st t left right reads) ->
        ts_read st i < t)
  /\ (fst (search_loop fuel st t left right reads) < hk_timestamp_array_size st ->
      t <= ts_read st (fst (search_loop fuel st t left right reads))).
Proof.
  intros Hc Hsorted. revert left right reads.
  induction fuel as [|fuel IH]; intros left right reads Hl Hr Hs Hf Hlo Hhi;
    cbn [search_loop].
  - cbn [fst]. assert (left = right) by lia. subst. auto with zarith.
  - destruct (Z.ltb_spec left right) as [Hlt|Hge].
    2:{ cbn [fst]. assert (left = right) by lia. subst. auto with zarith. }
    cbv zeta. rewrite Hc.
    assert (Hm : left <= (left + right) / 2 < right).
    { split; [apply Z.div_le_lower_bound | apply Z.div_lt_upper_bound]; lia. }
    rewrite (u16_small ((left + right) / 2)) by lia.
    rewrite (u16_small ((left + right) / 2 + 1)) by lia.
    set (m := (left + right) / 2) in *.
    replace (m - (1 - 1)) with m by lia.
    destruct (Z.ltb_spec (ts_read st m) t) as [Hcmp|Hcmp].
    + destruct (IH (m + 1) right (reads ++ [m]) ltac:(lia) Hr Hs ltac:(lia))
        as (B & I1 & I2).
      * intros i Hi. pose proof (Hsorted i m ltac:(lia) ltac:(lia)). lia.
      * exact Hhi.
      * split; [lia|]. split; assumption.
    + destruct (IH left m (reads ++ [m]) ltac:(lia) ltac:(lia) Hs ltac:(lia))
        as (B & I1 & I2).
      * exact Hlo.
      * intros _. exact Hcmp.
      * split; [lia|]. split; assumption.
Qed.

(** X14. When the store has just wrapped (the cursor is back at slot 1)
    and the index is sorted, the search finds what it should: for an index
    of at least two entries, non-decreasing over [1, size], and a target
    within 15 seconds of the entry of some slot, the result is a slot in
    [1, size] whose entry is within 15 seconds of the target. *)
Theorem search_finds_with_cursor_at_1 (st : hk_state) (target p : Z) :
  timestamps st <> ts_NULL -> current_file st = 1 -> ts_read st 1 <> 0 ->
  2 <= hk_timestamp_array_size st < 65536 ->
  (forall i j, 1 <= i <= j -> j <= hk_timestamp_array_size st ->
     ts_read st i <= ts_read st j) ->
  0 <= target < 4294967296 ->
  1 <= p <= hk_timestamp_array_size st ->
  -15 <= ts_read st p - target <= 15 ->
  1 <= get_file_id_from_timestamp st target <= hk_timestamp_array_size st
  /\ -15 <= ts_read st (get_file_id_from_timestamp st target) - target <= 15.
Proof.
  intros Hp Hc Hw Hs Hsorted Ht Hpr Hnear.
  unfold get_file_id_from_timestamp, get_file_id_trace. cbv zeta.
  rewrite (u32_small target) by lia. rewrite Hc.
  replace (ts_read st 1 =? 0) with false by (symmetry; apply Z.eqb_neq; exact Hw).
  set (sz := hk_timestamp_array_size st) in *.
  rewrite (u16_small (1 + sz - 1)) by lia.
  assert (G : forall res : Z * list Z,
    1 <= fst res <= 1 + sz - 1 ->
    (forall i, 1 <= i < fst res -> ts_read st i < target) ->
    (fst res < sz -> target <= ts_read st (fst res)) ->
    1 <= fst (let '(left', reads') := res in select_position st target left' reads') <= sz
    /\ -15 <= ts_read st (fst (let '(left', reads') := res in
                               select_position st target left' reads')) - target <= 15).
  { intros [L reads'] B I1 I2. cbn [fst] in B, I1, I2.
    unfold select_position. rewrite Hc. fold sz.
    replace (L - (1 - 1)) with L by lia. rewrite (u16_small L) by lia.
    unfold threshold.
    pose proof (u32_range (timestamps_at st (L - 1))) as Ra. fold (ts_read st (L - 1)) in Ra.
    pose proof (u32_range (timestamps_at st L)) as Rb. fold (ts_read st L) in Rb.
    pose proof (u32_sub target (ts_read st (L - 1)) Ht Ra) as U1.
    pose proof (u32_sub (ts_read st L) target Rb Ht) as U2.
    pose proof (u32_sub target (ts_read st L) Ht Rb) as U3.
    assert (S1 : 1 < L -> p < L -> ts_read st p <= ts_read st (L - 1))
      by (intros; apply Hsorted; lia).
    assert (S2 : L <= p -> ts_read st L <= ts_read st p)
      by (intros; apply Hsorted; lia).
    assert (S3 : p < L -> ts_read st p < target) by (intros; apply I1; lia).
    assert (S4 : 1 < L -> ts_read st (L - 1) < target) by (intros; apply I1; lia).
    assert (S5 : p = L -> ts_read st p = ts_read st L) by (intros ->; reflexivity).
    set (a := ts_read st (L - 1)) in *. set (b := ts_read st L) in *.
    set (c := ts_read st p) in *.
    destruct (Z.ltb_spec 1 L) as [H1|H1].
    - destruct (Z.leb_spec (u32 (target - a)) 15) as [H2|H2].
      { cbn [fst]. rewrite (u16_small (L - 1)) by lia. fold a.
        destruct (Z.leb_spec a target); lia. }
      destruct (Z.eqb_spec L sz) as [H3|H3]; cbn [negb].
      + destruct (Z.ltb_spec b target) as [H4|H4]; cbn [andb].
        * destruct (Z.leb_spec (u32 (target - b)) 15) as [H5|H5].
          { cbn [fst]. fold b. destruct (Z.leb_spec a target);
              destruct (Z.leb_spec b target); lia. }
          exfalso. destruct (Z.leb_spec a target); destruct (Z.leb_spec b target); lia.
        * destruct (Z.leb_spec (u32 (b - target)) 15) as [H6|H6]; cbn [fst]; fold b;
            destruct (Z.leb_spec a target); destruct (Z.leb_spec target b); lia.
      + destruct (Z.leb_spec (u32 (b - target)) 15) as [H6|H6]; cbn [fst]; fold b;
          destruct (Z.leb_spec a target); destruct (Z.leb_spec target b); lia.
    - destruct (Z.leb_spec (u32 (b - target)) 15) as [H6|H6]; cbn [fst]; fold b;
        destruct (Z.leb_spec target b); lia. }
  pose proof (search_loop_leftmost (Z.to_nat (1 + sz - 1 - 1)) st target 1 (1 + sz - 1) [1]
                Hc Hsorted ltac:(lia) ltac:(fold sz; lia) ltac:(fold sz; lia) ltac:(lia)
                ltac:(intros; lia) ltac:(fold sz; intros; lia)) as (B & I1 & I2).
  destruct (timestamps st); [congruence | |]; exact (G _ B I1 I2).
Qed.

Lemma search_finds_with_cursor_at_1_witness :
  (timestamps store_3_full <> ts_NULL /\ current_file store_3_full = 1
   /\ ts_read store_3_full 1 <> 0
   /\ 2 <= hk_timestamp_array_size store_3_full < 65536
   /\ (forall i j, 1 <= i <= j -> j <= hk_timestamp_array_size store_3_full ->
         ts_read store_3_full i <= ts_read store_3_full j)
   /\ 0 <= 165 < 4294967296
   /\ 1 <= 3 <= hk_timestamp_array_size store_3_full
   /\ -15 <= ts_read store_3_full 3 - 165 <= 15)
  /\ 1 <= get_file_id_from_timestamp store_3_full 165
     <= hk_timestamp_array_size store_3_full
  /\ -15 <= ts_read store_3_full (get_file_id_from_timestamp store_3_full 165) - 165
     <= 15.
Proof.
  assert (H1 : timestamps store_3_full <> ts_NULL) by by_running.
  assert (H2 : current_file store_3_full = 1) by by_running.
  assert (H3 : ts_read store_3_full 1 <> 0) by by_running.
  assert (H4 : 2 <= hk_timestamp_array_size store_3_full < 65536) by by_running.
  assert (H5 : forall i j, 1 <= i <= j -> j <= hk_timestamp_array_size store_3_full ->
                 ts_read store_3_full i <= ts_read store_3_full j).
  { assert (E : hk_timestamp_array_size store_3_full = 3) by by_running.
    rewrite E. intros i j Hij Hj.
    assert (Hi : i = 1 \/ i = 2 \/ i = 3) by lia.
    assert (Hj' : j = 1 \/ j = 2 \/ j = 3) by lia.
    destruct Hi as [-> | [-> | ->]]; destruct Hj' as [-> | [-> | ->]];
      solve [lia | by_running]. }
  assert (H6 : 0 <= 165 < 4294967296) by lia.
  assert (H7 : 1 <= 3 <= hk_timestamp_array_size store_3_full) by by_running.
  assert (H8 : -15 <= ts_read store_3_full 3 - 165 <= 15) by by_running.
  split; [exact (conj H1 (conj H2 (conj H3 (conj H4 (conj H5 (conj H6 (conj H7 H8)))))))|].
  exact (search_finds_with_cursor_at_1 store_3_full 165 3 H1 H2 H3 H4 H5 H6 H7 H8).
Defined.

Lemma u16_negative (x : Z) : -65536 <= x < 0 -> u16 x = x + 65536.
Proof.
  intros H. unfold u16. rewrite <- (Z.mod_add x 1 65536) by lia.
  apply Z.mod_small. lia.
Qed.

(** X15. Before the first wrap the search finds nothing. In a store whose
    index entry at the cursor is 0 (not every slot has been written since
    the index was sized) and whose cursor is at most 32768, the result is
    never the id of a slot below the cursor, that is, of a slot written in
    this revolution: it is 0 or at least 65537 minus the cursor. With the
    cursor at 1 or 2 (no record, one record) the result is 0. *)
Theorem unwrapped_search_finds_nothing (st : hk_state) (target : Z) :
  ts_read st (current_file st) = 0 -> 1 <= current_file st <= 32768 ->
  (get_file_id_from_timestamp st target = 0
   \/ 65537 - current_file st <= get_file_id_from_timestamp st target)
  /\ ~ (1 <= get_file_id_from_timestamp st target < current_file st)
  /\ (current_file st <= 2 -> get_file_id_from_timestamp st target = 0).
Proof.
  intros Hz Hc.
  assert (G : (get_file_id_from_timestamp st target = 0
               \/ 65537 - current_file st <= get_file_id_from_timestamp st target)
              /\ (current_file st <= 2 -> get_file_id_from_timestamp st target = 0));
    [| split; [tauto | split; [lia | tauto]]].
  unfold get_file_id_from_timestamp, get_file_id_trace. cbv zeta.
  set (t := u32 target). set (cf := current_file st) in *.
  rewrite Hz. change (0 =? 0) with true. cbv iota.
  destruct (timestamps st); [cbn [fst]; tauto | |];
    (destruct (Z.eqb_spec cf 1) as [H1|H1]; [cbn [fst]; tauto|]);
    rewrite (u16_small (cf - 1)) by lia;
    pose proof (search_loop_window (Z.to_nat (cf - 1 - 1)) st t 1 (cf - 1) [cf]
                  ltac:(lia) ltac:(lia)) as [B _];
    destruct (search_loop _ st t 1 (cf - 1) [cf]) as [L reads'];
    cbn [fst] in B; unfold select_position; fold cf; unfold threshold;
    (destruct (Z.eq_dec L (cf - 1)) as [HL|HL];
     [ replace (L - (cf - 1)) with 0 by lia; change (u16 0) with 0;
       change (1 <? 0) with false; cbv iota;
       destruct (_ <=? 15); cbn [fst]; tauto
     | rewrite (u16_negative (L - (cf - 1))) by lia;
       replace (1 <? L - (cf - 1) + 65536) with true by (symmetry; apply Z.ltb_lt; lia);
       repeat match goal with
              | |- context [if ?c then _ else _] => destruct c
              end; cbn [fst]; rewrite ?u16_small by lia; split; lia ]).
Qed.

Lemma unwrapped_search_finds_nothing_witness :
  (ts_read (default (initial_state heap0 ∅) (fresh_then heap0 [100; 130; 160]))
     (current_file (default (initial_state heap0 ∅) (fresh_then heap0 [100; 130; 160]))) = 0
   /\ 1 <= current_file (default (initial_state heap0 ∅) (fresh_then heap0 [100; 130; 160]))
      <= 32768)
  /\ (get_file_id_from_timestamp
        (default (initial_state heap0 ∅) (fresh_then heap0 [100; 130; 160])) 130 = 0
      \/ 65537 - current_file (default (initial_state heap0 ∅) (fresh_then heap0 [100; 130; 160]))
         <= get_file_id_from_timestamp
              (default (initial_state heap0 ∅) (fresh_then heap0 [100; 130; 160])) 130)
  /\ ~ (1 <= get_file_id_from_timestamp
               (default (initial_state heap0 ∅) (fresh_then heap0 [100; 130; 160])) 130
        < current_file (default (initial_state heap0 ∅) (fresh_then heap0 [100; 130; 160])))
  /\ (current_file (default (initial_state heap0 ∅) (fresh_then heap0 [100; 130; 160])) <= 2 ->
      get_file_id_from_timestamp
        (default (initial_state heap0 ∅) (fresh_then heap0 [100; 130; 160])) 130 = 0).
Proof.
  assert (H1 : ts_read (default (initial_state heap0 ∅) (fresh_then heap0 [100; 130; 160]))
                 (current_file (default (initial_state heap0 ∅)
                                  (fresh_then heap0 [100; 130; 160]))) = 0)
    by by_running.
  assert (H2 : 1 <= current_file (default (initial_state heap0 ∅)
                                    (fresh_then heap0 [100; 130; 160])) <= 32768)
    by by_running.
  split; [exact (conj H1 H2)|].
  exact (unwrapped_search_finds_nothing _ 130 H1 H2).
Defined.

(** ** Paging and the dispatcher *)

Lemma lock_taken_and_given (st : hk_state) :
  f_count_lock st = false -> set_f_count_lock false (set_f_count_lock true st) = st.
Proof. destruct st. cbn. intros ->. reflexivity. Qed.

Lemma fetch_loop_first_load (p : platform) (w : world) (n : nat)
    (locked_max locked_before_id : Z) (st : hk_state) :
  fetch_loop p w (S n) locked_max locked_before_id st
  = if w_malloc w
    then match files st !! snprintf_hk (filename_length (current_file st)) (current_file st) with
         | Some _ => Fault st
         | None => Ret FAILURE st
         end
    else Ret FAILURE st.
Proof.
  cbn [fetch_loop]. unfold load_historic_hk_data, read_hk_from_file, exists_.
  destruct (w_malloc w); cbn [negb bind]; [| reflexivity].
  destruct (files st !! _); reflexivity.
Qed.

(** X16. A page of one record or more never delivers anything. With the
    mutex free and a capacity of at least 1, a call with [limit >= 1]
    ends in its first step whatever slot or time it is asked to start at:
    when the file of the cursor's slot is on the medium (and the name
    buffer is allocated) the load stores through the null destination
    pointer, otherwise the call returns [FAILURE]; the store and the list
    of packets sent are exactly as before. *)
Theorem page_never_delivers (p : platform) (w : world)
    (limit before_id before_time : Z) (st : hk_state) :
  f_count_lock st = false -> 1 <= MAX_FILES st -> 1 <= limit ->
  (w_malloc w = true /\ persisted_at_cursor st ->
     fetch_historic_hk_and_transmit p w limit before_id before_time st = Fault st)
  /\ (~ (w_malloc w = true /\ persisted_at_cursor st) ->
     fetch_historic_hk_and_transmit p w limit before_id before_time st
     = Ret FAILURE st).
Proof.
  intros Hl Hm Hlim.
  unfold fetch_historic_hk_and_transmit, prv_get_lock, prv_give_lock, persisted_at_cursor.
  rewrite Hl. cbn [bind]. rewrite (lock_taken_and_given st Hl).
  cbn [MAX_FILES set_f_count_lock].
  set (id := if _ || _ then _ else _). clearbody id.
  assert (L : forall n, (1 <= n)%nat ->
            fetch_loop p w n (MAX_FILES st) id st
            = if w_malloc w
              then match files st !! snprintf_hk (filename_length (current_file st)) (current_file st) with
                   | Some _ => Fault st
                   | None => Ret FAILURE st
                   end
              else Ret FAILURE st).
  { intros [|n] Hn; [lia | apply fetch_loop_first_load]. }
  assert (E : (if MAX_FILES st <? limit
               then fetch_loop p w (Z.to_nat (MAX_FILES st)) (MAX_FILES st) id st
               else if limit =? 0 then Ret SUCCESS st
                    else fetch_loop p w (Z.to_nat limit) (MAX_FILES st) id st)
              = if w_malloc w
                then match files st !! snprintf_hk (filename_length (current_file st)) (current_file st) with
                     | Some _ => Fault st
                     | None => Ret FAILURE st
                     end
                else Ret FAILURE st).
  { destruct (_ <? limit); [apply L; lia|].
    replace (limit =? 0) with false by (symmetry; apply Z.eqb_neq; lia).
    apply L; lia. }
  rewrite E. fold (hk_filename (current_file st)). split.
  - intros [-> [x ->]]. reflexivity.
  - intros H. destruct (w_malloc w); [| reflexivity].
    destruct (files st !! hk_filename (current_file st)) eqn:F; [| reflexivity].
    exfalso. apply H. split; [reflexivity | eexists; reflexivity].
Qed.

Lemma page_never_delivers_witness :
  (f_count_lock store_3_wrapped = false /\ 1 <= MAX_FILES store_3_wrapped /\ 1 <= 2)
  /\ (w_malloc (world_ok 0) = true /\ persisted_at_cursor store_3_wrapped ->
        fetch_historic_hk_and_transmit (platform0 true) (world_ok 0) 2 0 0 store_3_wrapped
        = Fault store_3_wrapped)
  /\ (~ (w_malloc (world_ok 0) = true /\ persisted_at_cursor store_3_wrapped) ->
        fetch_historic_hk_and_transmit (platform0 true) (world_ok 0) 2 0 0 store_3_wrapped
        = Ret FAILURE store_3_wrapped).
Proof.
  assert (H1 : f_count_lock store_3_wrapped = false) by by_running.
  assert (H2 : 1 <= MAX_FILES store_3_wrapped) by by_running.
  assert (H3 : 1 <= 2) by lia.
  split; [exact (conj H1 (conj H2 H3))|].
  exact (page_never_delivers (platform0 true) (world_ok 0) 2 0 0 store_3_wrapped H1 H2 H3).
Defined.

Lemma all_below_spec (n : nat) (f : Z -> bool) (i x : Z) :
  all_below n f i = true -> i <= x < i + Z.of_nat n -> f x = true.
Proof.
  revert i. induction n as [|n IH]; intros i H Hx; [lia|].
  cbn [all_below] in H. apply andb_true_iff in H. destruct H as [H1 H2].
  destruct (Z.eq_dec x i) as [->|Hne]; [exact H1|].
  apply (IH (i + 1) H2). lia.
Qed.

Lemma bswap16_bytes_table :
  all_below (Z.to_nat 65536)
    (fun x => (bswap16 x mod 256 =? x / 256) && (bswap16 x / 256 =? x mod 256)) 0
  = true.
Proof. vm_compute. reflexivity. Qed.

Lemma bswap16_bytes (x : Z) :
  0 <= x < 65536 -> bswap16 x mod 256 = x / 256 /\ bswap16 x / 256 = x mod 256.
Proof.
  intros Hx.
  pose proof (all_below_spec _ _ 0 x bswap16_bytes_table ltac:(lia)) as T.
  cbv beta in T. rewrite andb_true_iff, !Z.eqb_eq in T. exact T.
Qed.

(** On every host the bytes copied into a reply for a 16-bit value that
    went through [csp_hton16] are the big-endian bytes of the value. *)
Lemma hton16_bytes (p : platform) (x : Z) :
  0 <= x < 65536 -> host_bytes16 p (csp_hton16 p x) = [x / 256; x mod 256].
Proof.
  intros Hx. unfold host_bytes16, csp_hton16.
  destruct (host_big_endian p); [reflexivity|].
  destruct (bswap16_bytes x Hx) as [-> ->]. reflexivity.
Qed.

(** X17. The capacity query answers in network byte order on every host.
    For a packet whose tag is [GET_MAX_FILES], with room for the reply in
    the buffer and a [csp_send] that succeeds, [hk_service_app] returns
    [SATR_OK] and sends one packet of length 4, built in the buffer of
    the request: status byte 0, then the capacity as two bytes, most
    significant first, whatever the byte order of the host. The store is
    not touched, and the mutex is not taken. *)
Theorem capacity_query_reply (p : platform) (w : world) (data : list Z)
    (st : hk_state) :
  data8 data (SUBSERVICE_BYTE p) = GET_MAX_FILES p ->
  GET_MAX_FILES p <> SET_MAX_FILES p ->
  0 <= MAX_FILES st < 65536 ->
  0 <= STATUS_BYTE p < OUT_DATA_BYTE p ->
  (Z.to_nat (OUT_DATA_BYTE p) + 1 < length data)%nat ->
  w_csp_send w = true ->
  exists reply,
    hk_service_app p w data st
    = Ret SATR_OK (set_conn_sent (conn_sent st ++ [Pkt_reply reply 4]) st)
    /\ reply !! Z.to_nat (STATUS_BYTE p) = Some 0
    /\ reply !! Z.to_nat (OUT_DATA_BYTE p) = Some (MAX_FILES st / 256)
    /\ reply !! (Z.to_nat (OUT_DATA_BYTE p) + 1)%nat = Some (MAX_FILES st mod 256)
    /\ length reply = length data.
Proof.
  intros Ht Hd Hm Hs Hlen Hsend. unfold hk_service_app, send_reply.
  rewrite Ht. replace (GET_MAX_FILES p =? SET_MAX_FILES p) with false
    by (symmetry; apply Z.eqb_neq; exact Hd).
  rewrite Z.eqb_refl, Hsend, (hton16_bytes p (MAX_FILES st) Hm).
  eexists. split; [reflexivity|].
  unfold store_bytes. cbn [imap fold_left]. unfold compose. cbv beta iota.
  rewrite !Nat.add_0_r.
  split; [| split; [| split]].
  - rewrite !list_lookup_insert_ne by lia. apply list_lookup_insert_eq. lia.
  - rewrite list_lookup_insert_ne by lia. apply list_lookup_insert_eq.
    rewrite length_insert. lia.
  - apply list_lookup_insert_eq. rewrite !length_insert. lia.
  - rewrite !length_insert. reflexivity.
Qed.

Lemma capacity_query_reply_witness :
  (data8 [1; 0; 0; 0] (SUBSERVICE_BYTE (platform0 false)) = GET_MAX_FILES (platform0 false)
   /\ GET_MAX_FILES (platform0 false) <> SET_MAX_FILES (platform0 false)
   /\ 0 <= MAX_FILES (initial_state heap0 ∅) < 65536
   /\ 0 <= STATUS_BYTE (platform0 false) < OUT_DATA_BYTE (platform0 false)
   /\ (Z.to_nat (OUT_DATA_BYTE (platform0 false)) + 1 < length [1; 0; 0; 0])%nat
   /\ w_csp_send (world_ok 0) = true)
  /\ exists reply,
    hk_service_app (platform0 false) (world_ok 0) [1; 0; 0; 0] (initial_state heap0 ∅)
    = Ret SATR_OK (set_conn_sent (conn_sent (initial_state heap0 ∅) ++ [Pkt_reply reply 4])
                     (initial_state heap0 ∅))
    /\ reply !! Z.to_nat (STATUS_BYTE (platform0 false)) = Some 0
    /\ reply !! Z.to_nat (OUT_DATA_BYTE (platform0 false))
       = Some (MAX_FILES (initial_state heap0 ∅) / 256)
    /\ reply !! (Z.to_nat (OUT_DATA_BYTE (platform0 false)) + 1)%nat
       = Some (MAX_FILES (initial_state heap0 ∅) mod 256)
    /\ length reply = length [1; 0; 0; 0].
Proof.
  assert (H1 : data8 [1; 0; 0; 0] (SUBSERVICE_BYTE (platform0 false))
               = GET_MAX_FILES (platform0 false)) by reflexivity.
  assert (H2 : GET_MAX_FILES (platform0 false) <> SET_MAX_FILES (platform0 false))
    by discriminate.
  assert (H3 : 0 <= MAX_FILES (initial_state heap0 ∅) < 65536) by by_running.
  assert (H4 : 0 <= STATUS_BYTE (platform0 false) < OUT_DATA_BYTE (platform0 false))
    by by_running.
  assert (H5 : (Z.to_nat (OUT_DATA_BYTE (platform0 false)) + 1 < length [1; 0; 0; 0])%nat)
    by (vm_compute; lia).
  assert (H6 : w_csp_send (world_ok 0) = true) by reflexivity.
  split; [exact (conj H1 (conj H2 (conj H3 (conj H4 (conj H5 H6)))))|].
  exact (capacity_query_reply (platform0 false) (world_ok 0) [1; 0; 0; 0]
           (initial_state heap0 ∅) H1 H2 H3 H4 H5 H6).
Defined.

(** X18. A request with an unknown sub-service tag is answered with
    [SATR_PKT_ILLEGAL_SUBSERVICE], changes nothing and sends nothing, and
    the server goes on with the next packet: a connection serves the same
    with or without such a packet in it. *)
Theorem unknown_requests_are_skipped (p : platform)
    (before after : list (world * list Z)) (w : world) (data : list Z)
    (st : hk_state) :
  data8 data (SUBSERVICE_BYTE p) <> SET_MAX_FILES p ->
  data8 data (SUBSERVICE_BYTE p) <> GET_MAX_FILES p ->
  data8 data (SUBSERVICE_BYTE p) <> GET_HK p ->
  hk_service_app p w data st = Ret SATR_PKT_ILLEGAL_SUBSERVICE st
  /\ serve_connection p (before ++ (w, data) :: after) st
     = serve_connection p (before ++ after) st.
Proof.
  intros H1 H2 H3.
  assert (E : forall s, hk_service_app p w data s = Ret SATR_PKT_ILLEGAL_SUBSERVICE s).
  { intros s. unfold hk_service_app.
    replace (data8 data (SUBSERVICE_BYTE p) =? SET_MAX_FILES p) with false
      by (symmetry; apply Z.eqb_neq; exact H1).
    replace (data8 data (SUBSERVICE_BYTE p) =? GET_MAX_FILES p) with false
      by (symmetry; apply Z.eqb_neq; exact H2).
    replace (data8 data (SUBSERVICE_BYTE p) =? GET_HK p) with false
      by (symmetry; apply Z.eqb_neq; exact H3).
    reflexivity. }
  split; [apply E|].
  revert st. induction before as [|[w' d'] before IH]; intros st.
  - cbn [app serve_connection]. rewrite E. reflexivity.
  - cbn [app serve_connection].
    destruct (hk_service_app p w' d' st); cbn [bind]; [apply IH | | |]; reflexivity.
Qed.

Lemma unknown_requests_are_skipped_witness :
  (data8 [9; 0; 0; 0] (SUBSERVICE_BYTE (platform0 true)) <> SET_MAX_FILES (platform0 true)
   /\ data8 [9; 0; 0; 0] (SUBSERVICE_BYTE (platform0 true)) <> GET_MAX_FILES (platform0 true)
   /\ data8 [9; 0; 0; 0] (SUBSERVICE_BYTE (platform0 true)) <> GET_HK (platform0 true))
  /\ hk_service_app (platform0 true) (world_ok 0) [9; 0; 0; 0] store_3_full
     = Ret SATR_PKT_ILLEGAL_SUBSERVICE store_3_full
  /\ serve_connection (platform0 true)
       ([(world_ok 0, [1; 0; 0; 0])] ++ (world_ok 0, [9; 0; 0; 0]) :: [(world_ok 0, [1; 0; 0; 0])])
       store_3_full
     = serve_connection (platform0 true)
         ([(world_ok 0, [1; 0; 0; 0])] ++ [(world_ok 0, [1; 0; 0; 0])]) store_3_full.
Proof.
  assert (H1 : data8 [9; 0; 0; 0] (SUBSERVICE_BYTE (platform0 true))
               <> SET_MAX_FILES (platform0 true)) by discriminate.
  assert (H2 : data8 [9; 0; 0; 0] (SUBSERVICE_BYTE (platform0 true))
               <> GET_MAX_FILES (platform0 true)) by discriminate.
  assert (H3 : data8 [9; 0; 0; 0] (SUBSERVICE_BYTE (platform0 true))
               <> GET_HK (platform0 true)) by discriminate.
  split; [exact (conj H1 (conj H2 H3))|].
  exact (unknown_requests_are_skipped (platform0 true) _ _ (world_ok 0) [9; 0; 0; 0]
           store_3_full H1 H2 H3).
Defined.




